(** * ezomero: the import orchestration of [ezomero/_importer.py]

    A shallow embedding of [_importer.py] and the properties of its
    orchestration core: the resolvers [set_or_create_project],
    [set_or_create_dataset] and [set_or_create_screen], the annotation
    batcher [multi_post_map_annotation], the class [Importer] and the entry
    point [ezimport].

    Python values are represented by the small universe the code inspects:
    [None], integers and strings ([atom]), lists and tuples of integers and
    dictionaries ([pyval]).  Booleans and floats are not represented.

    The OMERO server is a black box.  Every call that leaves the process
    (and every message that is logged or printed) is recorded, in order, in
    a trace of [event]s; what the server answers is given by the oracle
    fields of [BlitzGateway], arbitrary functions of the trace so far.
    Calls to the server are assumed to return: a failing remote call is
    outside the model. *)

From Stdlib Require Import ZArith List String Ascii Bool Lia DecimalString.
Import ListNotations.

Local Open Scope Z_scope.
Local Open Scope list_scope.

(** ** Python values *)

Inductive atom : Type :=
| ANone
| AInt (n : Z)
| AStr (s : string).

(** A value of a key-value dictionary: anything whose type is not [list]
    is a scalar, a [list] is a sequence of scalars. *)
Inductive dval : Type :=
| Scalar (a : atom)
| Seq (l : list atom).

Definition pydict : Type := list (atom * dval).

Inductive pyval : Type :=
| PAtom (a : atom)
| PList (l : list Z)
| PTuple (l : list Z)
| PDict (d : pydict).

(** Python truthiness: [if x:]. *)
Definition truthy (a : atom) : bool :=
  match a with
  | ANone => false
  | AInt n => negb (n =? 0)
  | AStr s => negb (String.eqb s "")
  end.

Definition nonempty {A : Type} (l : list A) : bool :=
  match l with
  | [] => false
  | _ :: _ => true
  end.

Definition truthy_val (v : pyval) : bool :=
  match v with
  | PAtom a => truthy a
  | PList l => nonempty l
  | PTuple l => nonempty l
  | PDict d => nonempty d
  end.

(** [x] of type [Optional[List[int]]] used as a condition. *)
Definition truthy_ids (x : option (list Z)) : bool :=
  match x with
  | None => false
  | Some l => nonempty l
  end.

Definition str_of_Z (n : Z) : string := NilZero.string_of_int (Z.to_int n).

(** Python's [str()] on the scalars. *)
Definition py_str (a : atom) : string :=
  match a with
  | ANone => "None"
  | AInt n => str_of_Z n
  | AStr s => s
  end.

(** [isinstance(x, str)], [isinstance(x, int)]. *)
Definition isinstance_str (a : atom) : bool :=
  match a with AStr _ => true | _ => false end.

Definition isinstance_int (a : atom) : bool :=
  match a with AInt _ => true | _ => false end.

(** [type(x) in [list, int]], [type(x) is dict]. *)
Definition type_in_list_int (v : pyval) : bool :=
  match v with
  | PList _ => true
  | PAtom (AInt _) => true
  | _ => false
  end.

Definition type_is_dict (v : pyval) : bool :=
  match v with PDict _ => true | _ => false end.

(** ** Exceptions, events and the monad of a run *)

Inductive exn : Type :=
| TypeError (msg : string)
| ValueError (msg : string)
| KeyError (key : string)
| IndexError (msg : string).

Inductive level : Type := Warning | Error.

(** One document of the YAML output of [omero import]: the dictionary
    read at the keys ['Image'] and ['Plate'], either of which may be
    missing. *)
Record doc : Type := mkDoc {
  Image : option (list Z);
  Plate : option (list Z)
}.

Inductive event : Type :=
| EGetSession
| EImport (arguments : list string)
| EPostProject (name : string)
| EPostDataset (name : string) (project_id : option Z)
| EPostScreen (name : string)
| EGetImageIds
| ELinkImages (image_ids : list Z) (dataset_id : Z)
| ELinkPlates (plate_ids : list Z) (screen_id : Z)
| ESaveMapAnn (ns : string) (kv_pairs : list (string * string))
| ELinkAnn (object_type : string) (object_id : Z) (map_ann_id : Z)
| ELog (lvl : level) (msg : string)
| EPrint (msg : string).

Definition trace : Type := list event.

(** The calls that reach the server or the import bridge. *)
Definition is_remote (e : event) : bool :=
  match e with
  | ELog _ _ | EPrint _ => false
  | _ => true
  end.

Definition is_creation (e : event) : bool :=
  match e with
  | EPostProject _ | EPostDataset _ _ | EPostScreen _ => true
  | _ => false
  end.

Definition is_post_screen (e : event) : bool :=
  match e with EPostScreen _ => true | _ => false end.

Definition is_link (e : event) : bool :=
  match e with ELinkImages _ _ | ELinkPlates _ _ => true | _ => false end.

Definition is_save_ann (e : event) : bool :=
  match e with ESaveMapAnn _ _ => true | _ => false end.

Definition is_ann (e : event) : bool :=
  match e with ESaveMapAnn _ _ | ELinkAnn _ _ _ => true | _ => false end.

Definition count (p : event -> bool) (t : trace) : nat :=
  List.length (filter p t).

(** The connection: its address and session, and the answers of what is
    behind it and of the process around it, each a function of the calls
    made so far. *)
Record BlitzGateway : Type := mkConn {
  host : string;
  port : Z;
  session_uuid : string;
  (** identifier the server assigns to the next object it creates *)
  new_id : trace -> Z;
  (** identifiers of the images that are in no dataset *)
  orphan_ids : trace -> list Z;
  (** documents the import writes for the given command line *)
  import_output : list string -> trace -> list doc;
  (** name of the next temporary file *)
  tmp_name : trace -> string;
  (** [os.path.abspath] in the directory the process runs in *)
  abspath : string -> string
}.

Inductive result (A : Type) : Type :=
| OK (a : A)
| Raised (e : exn).
Arguments OK {A} a.
Arguments Raised {A} e.

(** A computation reads the trace so far and returns a value or an
    exception together with the extended trace: what was done before an
    exception stays done. *)
Definition M (A : Type) : Type := trace -> result A * trace.

Definition ret {A : Type} (a : A) : M A := fun t => (OK a, t).

Definition raise {A : Type} (e : exn) : M A := fun t => (Raised e, t).

Definition bind {A B : Type} (m : M A) (k : A -> M B) : M B :=
  fun t =>
    match m t with
    | (OK a, t') => k a t'
    | (Raised e, t') => (Raised e, t')
    end.

Definition emit (e : event) : M unit := fun t => (OK tt, t ++ [e]).

(** A call that records [e] and returns the answer [ans], computed from
    the trace before the call. *)
Definition call {A : Type} (e : event) (ans : trace -> A) : M A :=
  fun t => (OK (ans t), t ++ [e]).

Declare Scope py_scope.
Delimit Scope py_scope with py.
Notation "x <- m ;; k" := (bind m (fun x => k))
  (at level 100, m at next level, right associativity) : py_scope.
Notation "m ;; k" := (bind m (fun _ => k))
  (at level 100, right associativity) : py_scope.
Local Open Scope py_scope.

(** [for x in l: body(x)]. *)
Fixpoint for_each {A : Type} (l : list A) (body : A -> M unit) : M unit :=
  match l with
  | [] => ret tt
  | x :: l' => body x ;; for_each l' body
  end.

Definition logging_warning (msg : string) : M unit := emit (ELog Warning msg).
Definition logging_error (msg : string) : M unit := emit (ELog Error msg).
Definition print (msg : string) : M unit := emit (EPrint msg).

(** A value read from the environment without a call being recorded. *)
Definition ask {A : Type} (f : trace -> A) : M A := fun t => (OK (f t), t).

(** ** The collaborators of [_importer.py] *)

(** [conn.getSession().getUuid().val]: a call on the connection, which
    may reach the server, for the identifier of its session. *)
Definition get_session_uuid (conn : BlitzGateway) : M string :=
  call EGetSession (fun _ => session_uuid conn).

(** Modelled from the spec: [post_project] of [_posts.py], the
    [createContainer] primitive: one call that creates a Project of the
    given name and returns the identifier the server assigns to it. *)
Definition post_project (conn : BlitzGateway) (name : string) : M Z :=
  call (EPostProject name) (new_id conn).

(** Modelled from the spec: [post_dataset] of [_posts.py], the
    [createContainer] primitive with its optional parent: one call that
    creates a Dataset, as a child of [project_id] when that is passed. *)
Definition post_dataset (conn : BlitzGateway) (name : string)
    (project_id : option Z) : M Z :=
  call (EPostDataset name project_id) (new_id conn).

(** Modelled from the spec: [post_screen] of [_posts.py], the
    [createContainer] primitive for a Screen. *)
Definition post_screen (conn : BlitzGateway) (name : string) : M Z :=
  call (EPostScreen name) (new_id conn).

(** Modelled from the spec: [get_image_ids] of [_gets.py] called with the
    connection alone, the [queryOrphanArtifactIds] primitive: one call
    that returns the identifiers of the images linked to no container. *)
Definition get_image_ids (conn : BlitzGateway) : M (list Z) :=
  call EGetImageIds (orphan_ids conn).

(** Modelled from the spec: [link_images_to_dataset] of [_misc.py], the
    [linkArtifact] primitive. *)
Definition link_images_to_dataset (conn : BlitzGateway)
    (image_ids : list Z) (dataset_id : Z) : M unit :=
  emit (ELinkImages image_ids dataset_id).

(** Modelled from the spec: [link_plates_to_screen] of [_misc.py], the
    [linkArtifact] primitive. *)
Definition link_plates_to_screen (conn : BlitzGateway)
    (plate_ids : list Z) (screen_id : Z) : M unit :=
  emit (ELinkPlates plate_ids screen_id).

(** Modelled from the spec: [MapAnnotationWrapper.save] followed by
    [getId], the [createAnnotation] primitive: one call that persists the
    record and returns its identifier. *)
Definition map_ann_save (conn : BlitzGateway) (ns : string)
    (kv_pairs : list (string * string)) : M Z :=
  call (ESaveMapAnn ns kv_pairs) (new_id conn).

(** Modelled from the spec: [conn.getObjects(object_type, object_ids)],
    which yields one object for each identifier asked for, in order. *)
Definition getObjects (conn : BlitzGateway) (object_type : string)
    (object_ids : list Z) : list Z := object_ids.

(** Modelled from the spec: [o.linkAnnotation(map_ann)], the
    [linkAnnotation] primitive. *)
Definition linkAnnotation (object_type : string) (o : Z) (map_ann_id : Z)
    : M unit :=
  emit (ELinkAnn object_type o map_ann_id).

(** ** The resolvers *)

Definition set_or_create_project (conn : BlitzGateway) (project : atom)
    : M Z :=
  match project with
  | AStr name =>
      project_id <- post_project conn name ;;
      print ("Created new Project:" ++ str_of_Z project_id) ;;
      ret project_id
  | AInt n => ret n
  | _ => raise (TypeError "'project' must be str or int")
  end.

(** [if project_id:] on an [Optional[int]]. *)
Definition truthy_id (x : option Z) : bool :=
  match x with
  | None => false
  | Some n => negb (n =? 0)
  end.

Definition set_or_create_dataset (conn : BlitzGateway)
    (project_id : option Z) (dataset : atom) : M Z :=
  match dataset with
  | AStr name =>
      dataset_id <-
        (if truthy_id project_id
         then post_dataset conn name project_id
         else post_dataset conn name None) ;;
      print ("Created new Dataset:" ++ str_of_Z dataset_id) ;;
      ret dataset_id
  | AInt n => ret n
  | _ => raise (TypeError "'dataset' must be str or int")
  end.

Definition set_or_create_screen (conn : BlitzGateway) (screen : atom)
    : M Z :=
  match screen with
  | AStr name =>
      screen_id <- post_screen conn name ;;
      print ("Created new screen:" ++ str_of_Z screen_id) ;;
      ret screen_id
  | AInt n => ret n
  | _ => raise (TypeError "'screen' must be str or int")
  end.

(** ** The annotation batcher *)

(** The loop that fills [kv_pairs]. *)
Definition flatten_kv (kv_dict : pydict) : list (string * string) :=
  fold_left
    (fun kv_pairs (item : atom * dval) =>
       let k := py_str (fst item) in
       match snd item with
       | Scalar v => kv_pairs ++ [(k, py_str v)]
       | Seq v =>
           fold_left
             (fun kv_pairs value => kv_pairs ++ [(k, py_str value)])
             v kv_pairs
       end)
    kv_dict [].

Definition multi_post_map_annotation (conn : BlitzGateway)
    (object_type : string) (object_ids : pyval) (kv_dict : pyval)
    (ns : atom) : M Z :=
  if negb (type_in_list_int object_ids)
  then raise (TypeError "object_ids must be list or integer")
  else
    let object_ids :=
      match object_ids with
      | PAtom (AInt n) => [n]
      | PList l => l
      | _ => []
      end in
    if (List.length object_ids =? 0)%nat
    then raise (ValueError "object_ids must contain one or more items")
    else
      match kv_dict with
      | PDict d =>
          let kv_pairs := flatten_kv d in
          map_ann_id <- map_ann_save conn (py_str ns) kv_pairs ;;
          for_each (getObjects conn object_type object_ids)
            (fun o => linkAnnotation object_type o map_ann_id) ;;
          ret map_ann_id
      | _ => raise (TypeError "Annotation must be of type `dict`")
      end.

(** ** The class [Importer] *)

Module Importer.

(** The attributes of an [Importer].  The connection is passed to each
    method instead of being stored.  [session_uuid], which the
    constructor assigns and nothing reads, is not kept: the submission
    asks the connection again.  An [import_result] that holds no document
    (the initial value, or an empty output file) is the empty list. *)
Record t : Type := mk {
  file_path : string;
  project : atom;
  dataset : atom;
  common_args : list string;
  named_args : list (string * string);
  import_result : list doc;
  screen : atom;
  imported : bool;
  image_ids : option (list Z);
  plate_ids : option (list Z);
  ann : pyval;
  ns : atom
}.

Definition set_image_ids (self : t) (v : option (list Z)) : t :=
  mk (file_path self) (project self) (dataset self)
    (common_args self) (named_args self) (import_result self) (screen self)
    (imported self) v (plate_ids self) (ann self) (ns self).

Definition set_plate_ids (self : t) (v : option (list Z)) : t :=
  mk (file_path self) (project self) (dataset self)
    (common_args self) (named_args self) (import_result self) (screen self)
    (imported self) (image_ids self) v (ann self) (ns self).

Definition set_import_result (self : t) (v : list doc) : t :=
  mk (file_path self) (project self) (dataset self)
    (common_args self) (named_args self) v (screen self)
    (imported self) (image_ids self) (plate_ids self) (ann self) (ns self).

Definition set_imported (self : t) (v : bool) : t :=
  mk (file_path self) (project self) (dataset self)
    (common_args self) (named_args self) (import_result self) (screen self)
    v (image_ids self) (plate_ids self) (ann self) (ns self).


(** [Importer.__init__]: the path is made absolute and the session of
    the connection asked for before the references are checked. *)
Definition init (conn : BlitzGateway) (file_path : string)
    (project dataset screen : atom) (ann : pyval) (ns : atom)
    (args : list string) (kwargs : list (string * string)) : M t :=
  let file_path := abspath conn file_path in
  session_uuid <- get_session_uuid conn ;;
  if truthy project && negb (truthy dataset)
  then raise (ValueError "Cannot define project but no dataset!")
  else ret (mk file_path project dataset args kwargs [] screen
              false None None ann ns).

(** [self.import_result[0][key]]. *)
Definition first_document (self : t) : M doc :=
  match import_result self with
  | [] => raise (IndexError "index out of range")
  | d :: _ => ret d
  end.

Definition get_my_image_ids (self : t)
    : M (option (list Z) * t) :=
  d <- first_document self ;;
  match Image d with
  | None => raise (KeyError "Image")
  | Some ids =>
      let self := set_image_ids self (Some ids) in
      ret (image_ids self, self)
  end.

(** [str.maketrans(x, y)] for two strings of the same length: the
    table that sends each character of [x] to the character of [y] at
    the same position. *)
Definition maketrans (x y : string) : list (ascii * ascii) :=
  combine (list_ascii_of_string x) (list_ascii_of_string y).

(** [table.get(c, c)], a later entry for a character replacing an
    earlier one. *)
Definition translate_char (table : list (ascii * ascii)) (c : ascii)
    : ascii :=
  fold_left (fun r kv => if Ascii.eqb c (fst kv) then snd kv else r) table c.

(** [s.translate(table)].  A path is read as its UTF-8 bytes: the
    characters of the table are ASCII, so replacing them byte by byte is
    replacing them character by character. *)
Fixpoint translate (s : string) (table : list (ascii * ascii)) : string :=
  match s with
  | EmptyString => EmptyString
  | String c s' => String (translate_char table c) (translate s' table)
  end.

Definition make_substitutions (self : t) : string :=
  let fpath := file_path self in
  let mytable :=
    maketrans (String "034" "*:<>?\|") "'x;[]%/!" in
  let final_path := translate fpath mytable in
  final_path.

Definition get_plate_ids (self : t)
    : M (option (list Z) * t) :=
  d <- first_document self ;;
  match Plate d with
  | None => raise (KeyError "Plate")
  | Some ids =>
      let self := set_plate_ids self (Some ids) in
      ret (plate_ids self, self)
  end.

Definition annotate_images (conn : BlitzGateway) (self : t)
    : M (option Z) :=
  if negb (truthy_val (ann self)) || negb (truthy (ns self))
  then
    logging_warning "Missing annotation or namespace, skipping annotations" ;;
    ret None
  else
    match image_ids self with
    | Some ((_ :: _) as ids) =>
        if (List.length ids =? 0)%nat
        then logging_error "No image ids to annotate" ;; ret None
        else
          map_ann_id <- multi_post_map_annotation conn "Image" (PList ids)
                          (ann self) (ns self) ;;
          ret (Some map_ann_id)
    | _ => ret None
    end.

Definition annotate_plates (conn : BlitzGateway) (self : t)
    : M (option Z) :=
  if negb (truthy_val (ann self)) || negb (truthy (ns self))
  then
    logging_warning "Missing annotation or namespace, skipping annotations" ;;
    ret None
  else
    match plate_ids self with
    | Some ((_ :: _) as ids) =>
        if (List.length ids =? 0)%nat
        then logging_error "No plate ids to annotate" ;; ret None
        else
          map_ann_id <- multi_post_map_annotation conn "Plate" (PList ids)
                          (ann self) (ns self) ;;
          ret (Some map_ann_id)
    | _ => ret None
    end.

(** [im_id not in orphans]. *)
Definition mem (x : Z) (l : list Z) : bool := existsb (Z.eqb x) l.

(** The body of the loop of [organize_images]. *)
Definition move_image (conn : BlitzGateway) (orphans : list Z)
    (dataset_id : option Z) (im_id : Z) : M unit :=
  if negb (mem im_id orphans)
  then logging_error ("Image:" ++ str_of_Z im_id ++ " not an orphan")
  else
    match dataset_id with
    | Some ds =>
        if truthy_id dataset_id
        then
          link_images_to_dataset conn [im_id] ds ;;
          print ("Moved Image:" ++ str_of_Z im_id ++ " to Dataset:"
                 ++ str_of_Z ds)
        else ret tt
    | None => ret tt
    end.

Definition organize_images (conn : BlitzGateway) (self : t)
    : M bool :=
  if negb (truthy_ids (image_ids self))
  then logging_error "No image ids to organize" ;; ret false
  else
    orphans <- get_image_ids conn ;;
    project_id <-
      (if truthy (project self)
       then p <- set_or_create_project conn (project self) ;; ret (Some p)
       else ret None) ;;
    dataset_id <-
      (if truthy (dataset self)
       then d <- set_or_create_dataset conn project_id (dataset self) ;;
            ret (Some d)
       else ret None) ;;
    for_each (match image_ids self with Some l => l | None => [] end)
      (move_image conn orphans dataset_id) ;;
    ret true.

(** The body of the loop of [organize_plates]. *)
Definition move_plate (conn : BlitzGateway) (self : t) (pl_id : Z)
    : M unit :=
  if truthy (screen self)
  then
    screen_id <- set_or_create_screen conn (screen self) ;;
    link_plates_to_screen conn [pl_id] screen_id ;;
    print ("Moved Plate:" ++ str_of_Z pl_id ++ " to Screen:"
           ++ str_of_Z screen_id)
  else ret tt.

Definition organize_plates (conn : BlitzGateway) (self : t)
    : M bool :=
  match plate_ids self with
  | Some ((_ :: _) as ids) =>
      if (List.length ids =? 0)%nat
      then logging_error "No plate ids to organize" ;; ret false
      else
        for_each ids (move_plate conn self) ;;
        ret true
  | _ => ret false
  end.

(** The command line handed to [cli.invoke]. *)
Definition arguments_of (conn : BlitzGateway) (self : t)
    (stdout_file_name : string) : list string :=
  let arguments :=
    ["import"; "-k"; session_uuid conn; "-s"; host conn;
     "-p"; str_of_Z (port conn)]%string in
  let arguments :=
    if nonempty (common_args self)
    then arguments ++ map (fun v => "--" ++ v)%string (common_args self)
    else arguments in
  let arguments :=
    if nonempty (named_args self)
    then arguments ++
         map (fun kv => "--" ++ fst kv ++ "=" ++ snd kv)%string
           (named_args self)
    else arguments in
  let arguments :=
    arguments ++ ["--file"; stdout_file_name; "--output"; "yaml"]%string in
  arguments ++ [file_path self].

(** [Importer.ezimport]: the submission.  The session of the connection
    is asked for again when the command line is built; the identifier
    the call returns is [session_uuid conn], which [arguments_of] reads.
    [cli.invoke] followed by the reading of the output file is one call,
    whose answer is the list of documents read.  The string [args] the
    method builds first is never used and is left out. *)
Definition ezimport (conn : BlitzGateway) (self : t)
    : M (bool * t) :=
  stdout_file_name <- ask (tmp_name conn) ;;
  session_uuid <- get_session_uuid conn ;;
  let arguments := arguments_of conn self stdout_file_name in
  import_result <- call (EImport arguments) (import_output conn arguments) ;;
  let self := set_import_result self import_result in
  if nonempty (import_result)
  then
    let self := set_imported self true in
    print ("Imported " ++ file_path self) ;;
    ret (true, self)
  else
    logging_error ("Import of " ++ file_path self ++ " has failed!") ;;
    ret (false, self).

End Importer.

(** ** The entry point *)

(** [ezimport], returning with its value the [imp_ctl] object as the run
    leaves it. *)
Definition ezimport_ctl (conn : BlitzGateway) (target : string)
    (project dataset screen : atom) (ann : pyval) (ns : atom)
    (args : list string) (kwargs : list (string * string))
    : M (option (list Z) * Importer.t) :=
  imp_ctl <- Importer.init conn target project dataset screen ann ns
               args kwargs ;;
  r <- Importer.ezimport conn imp_ctl ;;
  let rv := fst r in
  let imp_ctl := snd r in
  if rv
  then
    if truthy (Importer.screen imp_ctl)
    then
      r <- Importer.get_plate_ids imp_ctl ;;
      let imp_ctl := snd r in
      Importer.organize_plates conn imp_ctl ;;
      Importer.annotate_plates conn imp_ctl ;;
      ret (Importer.plate_ids imp_ctl, imp_ctl)
    else
      r <- Importer.get_my_image_ids imp_ctl ;;
      let imp_ctl := snd r in
      Importer.organize_images conn imp_ctl ;;
      Importer.annotate_images conn imp_ctl ;;
      ret (Importer.image_ids imp_ctl, imp_ctl)
  else ret (None, imp_ctl).

Definition ezimport (conn : BlitzGateway) (target : string)
    (project dataset screen : atom) (ann : pyval) (ns : atom)
    (args : list string) (kwargs : list (string * string))
    : M (option (list Z)) :=
  r <- ezimport_ctl conn target project dataset screen ann ns args kwargs ;;
  ret (fst r).

(** ** What the specification names *)

(** The pairs of one entry of the mapping, as the specification words
    it: a scalar gives one pair, a sequence one pair for each element,
    in order, all under the same key. *)
Definition pairs_of_entry (item : atom * dval) : list (string * string) :=
  match snd item with
  | Scalar v => [(py_str (fst item), py_str v)]
  | Seq v => map (fun value => (py_str (fst item), py_str value)) v
  end.

Definition flatten_spec (kv_dict : pydict) : list (string * string) :=
  flat_map pairs_of_entry kv_dict.

(** Length of a value, a scalar counting as 1. *)
Definition value_length (v : dval) : nat :=
  match v with
  | Scalar _ => 1%nat
  | Seq l => List.length l
  end.

Definition total_length (kv_dict : pydict) : nat :=
  list_sum (map (fun item => value_length (snd item)) kv_dict).

(** The two pipelines of the orchestration, run on the [imp_ctl] object
    that the submission leaves. *)
Definition plate_pipeline (conn : BlitzGateway) (imp_ctl : Importer.t)
    : M (option (list Z) * Importer.t) :=
  r <- Importer.get_plate_ids imp_ctl ;;
  let imp_ctl := snd r in
  Importer.organize_plates conn imp_ctl ;;
  Importer.annotate_plates conn imp_ctl ;;
  ret (Importer.plate_ids imp_ctl, imp_ctl).

Definition image_pipeline (conn : BlitzGateway) (imp_ctl : Importer.t)
    : M (option (list Z) * Importer.t) :=
  r <- Importer.get_my_image_ids imp_ctl ;;
  let imp_ctl := snd r in
  Importer.organize_images conn imp_ctl ;;
  Importer.annotate_images conn imp_ctl ;;
  ret (Importer.image_ids imp_ctl, imp_ctl).

(** What the loop of [organize_images] does for one image. *)
Definition image_events (orphans : list Z) (dataset_id : option Z)
    (im_id : Z) : list event :=
  if Importer.mem im_id orphans
  then
    match dataset_id with
    | Some ds =>
        if ds =? 0 then []
        else [ELinkImages [im_id] ds;
              EPrint ("Moved Image:" ++ str_of_Z im_id ++ " to Dataset:"
                      ++ str_of_Z ds)]
    | None => []
    end
  else [ELog Error ("Image:" ++ str_of_Z im_id ++ " not an orphan")].

(** The resolution of the hierarchy in [organize_images]: the project
    first, then the dataset under it. *)
Definition resolve_hierarchy (conn : BlitzGateway) (self : Importer.t)
    : M (option Z) :=
  project_id <-
    (if truthy (Importer.project self)
     then p <- set_or_create_project conn (Importer.project self) ;;
          ret (Some p)
     else ret None) ;;
  (if truthy (Importer.dataset self)
   then d <- set_or_create_dataset conn project_id (Importer.dataset self) ;;
        ret (Some d)
   else ret None).

Definition is_orphan_query (e : event) : bool :=
  match e with EGetImageIds => true | _ => false end.

(** A stretch of trace with no link and no orphan query in it. *)
Definition quiet (r : list event) : Prop :=
  filter (fun e => is_link e || is_orphan_query e) r = [].

(** The object [Importer.__init__] builds when it accepts its arguments. *)
Definition new_importer (target : string) (project dataset screen : atom)
    (ann : pyval) (ns : atom) (args : list string)
    (kwargs : list (string * string)) : Importer.t :=
  Importer.mk target project dataset args kwargs [] screen false None None
    ann ns.

(** The documents the submission of [self] yields when it starts at
    trace [t]: the import is called once the session has been asked
    for. *)
Definition submitted (conn : BlitzGateway) (self : Importer.t) (t : trace)
    : list doc :=
  import_output conn (Importer.arguments_of conn self (tmp_name conn t))
    (t ++ [EGetSession]).

(** The object after a submission that yielded [docs]. *)
Definition after_import (self : Importer.t) (docs : list doc) : Importer.t :=
  Importer.set_imported (Importer.set_import_result self docs) true.

(** [self] with other values for [ann] and [ns]. *)
Definition with_annotation (self : Importer.t) (ann : pyval) (ns : atom)
    : Importer.t :=
  Importer.mk (Importer.file_path self) (Importer.project self)
    (Importer.dataset self) (Importer.common_args self)
    (Importer.named_args self) (Importer.import_result self)
    (Importer.screen self) (Importer.imported self) (Importer.image_ids self)
    (Importer.plate_ids self) ann ns.

(** What the caller of [ezimport] sees of an outcome of [ezimport_ctl]. *)
Definition seen (o : result (option (list Z) * Importer.t) * trace)
    : result (option (list Z)) * trace :=
  (match fst o with
   | OK r => OK (fst r)
   | Raised e => Raised e
   end, snd o).

(** The annotation step is skipped: [not self.ann or not self.ns]. *)
Definition skipped (ann : pyval) (ns : atom) : bool :=
  negb (truthy_val ann) || negb (truthy ns).

(** The events a computation adds to the trace [t]. *)
Definition added {A : Type} (m : M A) (t : trace) : list event :=
  skipn (List.length t) (snd (m t)).

(** ** A server to run examples on

    Identifiers are handed out from 1000 on, one more for every event
    recorded so far; the paths of the examples are absolute, and
    [abspath] leaves them as they are. *)
Definition demo_conn (docs : list doc) (orphans : list Z) : BlitzGateway :=
  mkConn "localhost" 4064 "uuid"
    (fun t => 1000 + Z.of_nat (List.length t))
    (fun _ => orphans)
    (fun _ _ => docs)
    (fun _ => "/tmp/out"%string)
    (fun path => path).

(** A server that gives the identifier 0 to whatever it creates. *)
Definition zero_conn (orphans : list Z) : BlitzGateway :=
  mkConn "localhost" 4064 "uuid" (fun _ => 0) (fun _ => orphans)
    (fun _ _ => []) (fun _ => "/tmp/out"%string) (fun path => path).

(** ** Coverage beyond the claims: what the statements name *)

(** The characters [make_substitutions] replaces. *)
Definition replaced_chars : list ascii :=
  list_ascii_of_string (String "034" "*:<>?\|").

(** [self] with another [file_path]. *)
Definition with_file_path (self : Importer.t) (path : string) : Importer.t :=
  Importer.mk path (Importer.project self)
    (Importer.dataset self) (Importer.common_args self)
    (Importer.named_args self) (Importer.import_result self)
    (Importer.screen self) (Importer.imported self) (Importer.image_ids self)
    (Importer.plate_ids self) (Importer.ann self) (Importer.ns self).

(** A computation only ever extends the trace it is given, and with
    events that satisfy [P], whether it returns or raises. *)
Definition only {A : Type} (P : event -> bool) (m : M A) : Prop :=
  forall t, exists r, snd (m t) = t ++ r /\ forallb P r = true.

Definition is_import (e : event) : bool :=
  match e with EImport _ => true | _ => false end.

(** The events of the plate side of a run, and of its image side. *)
Definition plate_side (e : event) : bool :=
  match e with
  | EPostScreen _ | ELinkPlates _ _ | ESaveMapAnn _ _ | ELinkAnn "Plate" _ _
  | ELog _ _ | EPrint _ => true
  | _ => false
  end.

Definition image_side (e : event) : bool :=
  match e with
  | EGetImageIds | EPostProject _ | EPostDataset _ _ | ELinkImages _ _
  | ESaveMapAnn _ _ | ELinkAnn "Image" _ _ | ELog _ _ | EPrint _ => true
  | _ => false
  end.

(** An annotation the batcher accepts or the step skips. *)
Definition annotation_ok (ann : pyval) (ns : atom) : bool :=
  skipped ann ns || type_is_dict ann.

(** A computation that returns a value, whatever the trace it starts
    from. *)
Definition returns {A : Type} (m : M A) : Prop :=
  forall t, exists a, fst (m t) = OK a.

Definition is_error_log (e : event) : bool :=
  match e with ELog Error _ => true | _ => false end.

(** What [organize_plates] adds for one plate when the screen is given
    by its identifier. *)
Definition plate_events (screen_id : Z) (pl_id : Z) : list event :=
  [ELinkPlates [pl_id] screen_id;
   EPrint ("Moved Plate:" ++ str_of_Z pl_id ++ " to Screen:"
           ++ str_of_Z screen_id)].

Definition is_session (e : event) : bool :=
  match e with EGetSession => true | _ => false end.

(** The object a run builds: [new_importer] on the absolute path. *)
Definition run_importer (conn : BlitzGateway) (target : string)
    (project dataset screen : atom) (ann : pyval) (ns : atom)
    (args : list string) (kwargs : list (string * string)) : Importer.t :=
  new_importer (abspath conn target) project dataset screen ann ns args
    kwargs.

(** The trace of a run once its import has brought documents back: the
    session asked for by the constructor and again by the submission,
    the import and its message. *)
Definition imported_trace (conn : BlitzGateway) (self : Importer.t)
    (t : trace) : trace :=
  t ++ [EGetSession; EGetSession;
        EImport (Importer.arguments_of conn self
                   (tmp_name conn (t ++ [EGetSession])));
        EPrint ("Imported " ++ Importer.file_path self)].

(** The resolution of [organize_images] spelled out: the events of the
    project part and the identifier it yields, then those of the dataset
    part, each creation answered by the server from the trace before
    the call. *)
Definition project_part (conn : BlitzGateway) (project : atom) (t : trace)
    : option Z * list event :=
  if truthy project
  then
    match project with
    | AStr name =>
        (Some (new_id conn t),
         [EPostProject name;
          EPrint ("Created new Project:" ++ str_of_Z (new_id conn t))])
    | AInt n => (Some n, [])
    | ANone => (None, [])
    end
  else (None, []).

Definition dataset_part (conn : BlitzGateway) (project_id : option Z)
    (dataset : atom) (t : trace) : option Z * list event :=
  if truthy dataset
  then
    match dataset with
    | AStr name =>
        (Some (new_id conn t),
         [EPostDataset name
            (match project_id with
             | Some p => if p =? 0 then None else Some p
             | None => None
             end);
          EPrint ("Created new Dataset:" ++ str_of_Z (new_id conn t))])
    | AInt n => (Some n, [])
    | ANone => (None, [])
    end
  else (None, []).

(** ** The monad and the trace *)

Lemma bind_OK {A B : Type} (m : M A) (k : A -> M B) (t t' : trace) (a : A) :
  m t = (OK a, t') -> bind m k t = k a t'.
Proof. intros H. unfold bind. now rewrite H. Qed.

Lemma bind_Raised {A B : Type} (m : M A) (k : A -> M B) (t t' : trace)
    (e : exn) :
  m t = (Raised e, t') -> bind m k t = (Raised e, t').
Proof. intros H. unfold bind. now rewrite H. Qed.

Lemma bind_bind {A B C : Type} (m : M A) (f : A -> M B) (g : B -> M C)
    (t : trace) :
  bind (bind m f) g t = bind m (fun x => bind (f x) g) t.
Proof. unfold bind. now destruct (m t) as [[a|e] t']. Qed.

Lemma added_app {A : Type} (m : M A) (t l : trace) (r : result A) :
  m t = (r, t ++ l) -> added m t = l.
Proof.
  intros H. unfold added. rewrite H. cbn [snd].
  rewrite skipn_app, skipn_all, Nat.sub_diag. reflexivity.
Qed.

Lemma count_app (p : event -> bool) (t1 t2 : trace) :
  count p (t1 ++ t2) = (count p t1 + count p t2)%nat.
Proof. unfold count. now rewrite filter_app, length_app. Qed.

(** A loop whose body only records events, the same whatever the trace,
    records them for each element in order. *)
Lemma for_each_emits {A : Type} (body : A -> M unit) (ev : A -> list event) :
  (forall x t, body x t = (OK tt, t ++ ev x)) ->
  forall l t, for_each l body t = (OK tt, t ++ flat_map ev l).
Proof.
  intros Hbody. induction l as [|x l IH]; intros t; cbn [for_each flat_map].
  - unfold ret. now rewrite app_nil_r.
  - rewrite (bind_OK _ _ _ _ _ (Hbody x t)), IH. now rewrite app_assoc.
Qed.

Lemma flat_map_singleton {A B : Type} (f : A -> B) (l : list A) :
  flat_map (fun x => [f x]) l = map f l.
Proof. induction l as [|x l IH]; cbn; [reflexivity | now rewrite IH]. Qed.

(** ** The resolvers *)

Lemma set_or_create_project_int conn n t :
  set_or_create_project conn (AInt n) t = (OK n, t).
Proof. reflexivity. Qed.

Lemma set_or_create_project_str conn name t :
  set_or_create_project conn (AStr name) t =
  (OK (new_id conn t),
   t ++ [EPostProject name;
         EPrint ("Created new Project:" ++ str_of_Z (new_id conn t))]).
Proof.
  cbv [set_or_create_project post_project call print emit bind ret].
  now rewrite <- app_assoc.
Qed.

Lemma set_or_create_dataset_int conn pid n t :
  set_or_create_dataset conn pid (AInt n) t = (OK n, t).
Proof. reflexivity. Qed.

Lemma set_or_create_dataset_str conn pid name t :
  set_or_create_dataset conn pid (AStr name) t =
  (OK (new_id conn t),
   t ++ [EPostDataset name (if truthy_id pid then pid else None);
         EPrint ("Created new Dataset:" ++ str_of_Z (new_id conn t))]).
Proof.
  cbv [set_or_create_dataset post_dataset call print emit bind ret].
  destruct (truthy_id pid); now rewrite <- app_assoc.
Qed.

Lemma set_or_create_screen_int conn n t :
  set_or_create_screen conn (AInt n) t = (OK n, t).
Proof. reflexivity. Qed.

Lemma set_or_create_screen_str conn name t :
  set_or_create_screen conn (AStr name) t =
  (OK (new_id conn t),
   t ++ [EPostScreen name;
         EPrint ("Created new screen:" ++ str_of_Z (new_id conn t))]).
Proof.
  cbv [set_or_create_screen post_screen call print emit bind ret].
  now rewrite <- app_assoc.
Qed.

(** A reference that passes [if ref:] is a name or a number. *)
Lemma truthy_inv a :
  truthy a = true ->
  (exists name, a = AStr name /\ name <> ""%string) \/
  (exists n, a = AInt n /\ n <> 0).
Proof.
  destruct a as [|n|s]; cbn; intros H; try discriminate.
  - right. exists n. split; [reflexivity|].
    intros ->. discriminate.
  - left. exists s. split; [reflexivity|].
    intros ->. discriminate.
Qed.

(** C3, as the code has it.  A resolver given an integer returns it and
    calls nothing.  Given a name it issues exactly one creation call and
    returns the identifier the server assigns, whatever was created
    before: resolving the same name twice creates twice.  A Dataset
    created by name carries the parent project when that identifier is
    not zero, and is created without a parent when the identifier is
    absent or zero. *)
Theorem resolver_int_or_create (conn : BlitzGateway) (t : trace) :
  (forall n, set_or_create_project conn (AInt n) t = (OK n, t)) /\
  (forall pid n, set_or_create_dataset conn pid (AInt n) t = (OK n, t)) /\
  (forall n, set_or_create_screen conn (AInt n) t = (OK n, t)) /\
  (forall name,
     fst (set_or_create_project conn (AStr name) t) = OK (new_id conn t) /\
     filter is_remote (added (set_or_create_project conn (AStr name)) t)
       = [EPostProject name]) /\
  (forall name,
     fst (set_or_create_screen conn (AStr name) t) = OK (new_id conn t) /\
     filter is_remote (added (set_or_create_screen conn (AStr name)) t)
       = [EPostScreen name]) /\
  (forall pid name,
     fst (set_or_create_dataset conn pid (AStr name) t)
       = OK (new_id conn t) /\
     filter is_remote (added (set_or_create_dataset conn pid (AStr name)) t)
       = [EPostDataset name
            (match pid with
             | Some p => if p =? 0 then None else Some p
             | None => None
             end)]) /\
  (forall name,
     count is_creation
       (added (set_or_create_project conn (AStr name) ;;
               set_or_create_project conn (AStr name)) t) = 2%nat).
Proof.
  split; [reflexivity|]. split; [reflexivity|]. split; [reflexivity|].
  split; [|split; [|split]].
  - intros name. split; [now rewrite set_or_create_project_str|].
    now rewrite (added_app _ _ _ _ (set_or_create_project_str conn name t)).
  - intros name. split; [now rewrite set_or_create_screen_str|].
    now rewrite (added_app _ _ _ _ (set_or_create_screen_str conn name t)).
  - intros pid name. split; [now rewrite set_or_create_dataset_str|].
    rewrite (added_app _ _ _ _ (set_or_create_dataset_str conn pid name t)).
    destruct pid as [p|]; cbn; [destruct (p =? 0)|]; reflexivity.
  - intros name. erewrite added_app.
    2:{ rewrite (bind_OK _ _ _ _ _ (set_or_create_project_str conn name t)).
        cbv beta.
        rewrite set_or_create_project_str, <- app_assoc. reflexivity. }
    reflexivity.
Qed.

(** C3 as stated fails: with the parent project 0 supplied, the Dataset
    is created without a parent. *)
Lemma dataset_parent_zero_not_carried :
  let tr := snd (set_or_create_dataset (demo_conn [] []) (Some 0)
                   (AStr "D") []) in
  In (EPostDataset "D" None) tr /\ ~ In (EPostDataset "D" (Some 0)) tr.
Proof.
  cbn. split; [now left|].
  intros [H|[H|[]]]; discriminate.
Qed.

(** ** The annotation batcher *)

Lemma fold_left_snoc_map {A B : Type} (f : A -> B) (l : list A) (acc : list B) :
  fold_left (fun acc x => acc ++ [f x]) l acc = acc ++ map f l.
Proof.
  revert acc. induction l as [|x l IH]; intros acc; cbn.
  - now rewrite app_nil_r.
  - now rewrite IH, <- app_assoc.
Qed.

Lemma flatten_kv_from (d : pydict) (acc : list (string * string)) :
  fold_left
    (fun kv_pairs (item : atom * dval) =>
       let k := py_str (fst item) in
       match snd item with
       | Scalar v => kv_pairs ++ [(k, py_str v)]
       | Seq v =>
           fold_left
             (fun kv_pairs value => kv_pairs ++ [(k, py_str value)])
             v kv_pairs
       end)
    d acc
  = acc ++ flatten_spec d.
Proof.
  revert acc. induction d as [|[k v] d IH]; intros acc; cbn [fold_left].
  - cbn. now rewrite app_nil_r.
  - rewrite IH. unfold flatten_spec. cbn [flat_map].
    unfold pairs_of_entry at 1. cbn [fst snd].
    destruct v as [a|l].
    + now rewrite <- app_assoc.
    + rewrite (fold_left_snoc_map (fun value => (py_str k, py_str value))).
      now rewrite <- app_assoc.
Qed.

Lemma flatten_kv_spec (d : pydict) : flatten_kv d = flatten_spec d.
Proof. unfold flatten_kv. now rewrite flatten_kv_from. Qed.

Lemma flatten_spec_length (d : pydict) :
  List.length (flatten_spec d) = total_length d.
Proof.
  unfold flatten_spec, total_length.
  induction d as [|[k v] d IH]; cbn [flat_map map list_sum fold_right].
  - reflexivity.
  - rewrite length_app. fold (list_sum (map (fun item : atom * dval => value_length (snd item)) d)).
    rewrite IH. f_equal.
    destruct v; cbn; [reflexivity | now rewrite length_map].
Qed.

Lemma linkAnnotation_loop object_type map_ann_id ids t :
  for_each ids (fun o => linkAnnotation object_type o map_ann_id) t =
  (OK tt, t ++ map (fun o => ELinkAnn object_type o map_ann_id) ids).
Proof.
  rewrite (for_each_emits _ (fun o => [ELinkAnn object_type o map_ann_id]))
    by reflexivity.
  now rewrite flat_map_singleton.
Qed.

Lemma multi_post_map_annotation_list conn object_type x l d ns t :
  multi_post_map_annotation conn object_type (PList (x :: l)) (PDict d) ns t =
  (OK (new_id conn t),
   t ++ ESaveMapAnn (py_str ns) (flatten_kv d)
        :: map (fun o => ELinkAnn object_type o (new_id conn t)) (x :: l)).
Proof.
  unfold multi_post_map_annotation.
  cbn [type_in_list_int negb List.length Nat.eqb].
  unfold map_ann_save, call, getObjects, bind at 1.
  unfold bind. rewrite linkAnnotation_loop. unfold ret.
  now rewrite <- app_assoc.
Qed.

Lemma multi_post_map_annotation_int conn object_type n kv_dict ns t :
  multi_post_map_annotation conn object_type (PAtom (AInt n)) kv_dict ns t =
  multi_post_map_annotation conn object_type (PList [n]) kv_dict ns t.
Proof. reflexivity. Qed.

(** Whatever [multi_post_map_annotation] raises, it raises before it has
    called anything. *)
Lemma multi_post_map_annotation_raises conn object_type object_ids kv_dict
    ns t e t' :
  multi_post_map_annotation conn object_type object_ids kv_dict ns t
    = (Raised e, t') ->
  t' = t.
Proof.
  unfold multi_post_map_annotation.
  destruct (type_in_list_int object_ids) eqn:Hty; cbn [negb].
  2:{ unfold raise. now intros [= _ <-]. }
  set (ids := match object_ids with
              | PAtom (AInt n) => [n] | PList l => l | _ => [] end).
  destruct ids as [|x l]; cbn [List.length Nat.eqb].
  { unfold raise. now intros [= _ <-]. }
  destruct kv_dict as [a|l'|l'|d]; try (unfold raise; now intros [= _ <-]).
  unfold map_ann_save, call, getObjects, bind at 1.
  unfold bind. rewrite linkAnnotation_loop. unfold ret. discriminate.
Qed.

(** C4.  The pairs built from a mapping are, entry by entry in the order
    of the mapping, one pair of strings for a scalar value and one pair
    for each element of a sequence value, in order and under the same
    key; there are as many pairs as the values have elements, a scalar
    counting as one.  A call that is accepted persists exactly one record,
    holding these pairs, and then links it to every object asked for,
    whether given as a list or as a bare integer. *)
Theorem batch_flattens_and_saves_once (conn : BlitzGateway)
    (object_type : string) (x : Z) (l : list Z) (d : pydict) (ns : atom)
    (t : trace) :
  flatten_kv d = flatten_spec d /\
  List.length (flatten_kv d) = total_length d /\
  multi_post_map_annotation conn object_type (PList (x :: l)) (PDict d) ns t
    = (OK (new_id conn t),
       t ++ ESaveMapAnn (py_str ns) (flatten_kv d)
            :: map (fun o => ELinkAnn object_type o (new_id conn t)) (x :: l)) /\
  count is_save_ann
    (added (multi_post_map_annotation conn object_type (PList (x :: l))
              (PDict d) ns) t) = 1%nat /\
  multi_post_map_annotation conn object_type (PAtom (AInt x)) (PDict d) ns t
    = (OK (new_id conn t),
       t ++ [ESaveMapAnn (py_str ns) (flatten_kv d);
             ELinkAnn object_type x (new_id conn t)]).
Proof.
  split; [apply flatten_kv_spec|].
  split; [rewrite flatten_kv_spec; apply flatten_spec_length|].
  split; [apply multi_post_map_annotation_list|].
  split.
  - rewrite (added_app _ _ _ _
               (multi_post_map_annotation_list conn object_type x l d ns t)).
    unfold count. cbn [filter is_save_ann List.length]. f_equal.
    induction (x :: l) as [|y l' IH]; cbn; [reflexivity | exact IH].
  - rewrite multi_post_map_annotation_int.
    apply multi_post_map_annotation_list.
Qed.

(** C5.  An empty list of objects raises a value error; objects given as
    anything but a list or an integer raise a type error; a bare integer
    is treated as the list holding it; with the objects accepted, an
    annotation that is not a dictionary raises a type error.  Whenever
    the call raises, nothing was persisted and nothing linked: the trace
    is as it was. *)
Theorem batch_validation (conn : BlitzGateway) (object_type : string)
    (object_ids kv_dict : pyval) (ns : atom) (t : trace) :
  multi_post_map_annotation conn object_type (PList []) kv_dict ns t
    = (Raised (ValueError "object_ids must contain one or more items"), t) /\
  (type_in_list_int object_ids = false ->
   multi_post_map_annotation conn object_type object_ids kv_dict ns t
     = (Raised (TypeError "object_ids must be list or integer"), t)) /\
  (forall n,
     multi_post_map_annotation conn object_type (PAtom (AInt n)) kv_dict ns t
     = multi_post_map_annotation conn object_type (PList [n]) kv_dict ns t) /\
  (type_is_dict kv_dict = false ->
   forall x l,
     multi_post_map_annotation conn object_type (PList (x :: l)) kv_dict ns t
       = (Raised (TypeError "Annotation must be of type `dict`"), t) /\
     multi_post_map_annotation conn object_type (PAtom (AInt x)) kv_dict ns t
       = (Raised (TypeError "Annotation must be of type `dict`"), t)) /\
  (forall e t',
     multi_post_map_annotation conn object_type object_ids kv_dict ns t
       = (Raised e, t') ->
     t' = t /\ added (multi_post_map_annotation conn object_type object_ids
                        kv_dict ns) t = []).
Proof.
  split; [reflexivity|].
  split.
  { intros H. unfold multi_post_map_annotation. now rewrite H. }
  split; [reflexivity|].
  split.
  { intros H x l. destruct kv_dict; try discriminate; split; reflexivity. }
  intros e t' H.
  pose proof (multi_post_map_annotation_raises _ _ _ _ _ _ _ _ H) as ->.
  split; [reflexivity|].
  apply (added_app _ _ _ (Raised e)). now rewrite app_nil_r.
Qed.

Lemma batch_validation_witness :
  multi_post_map_annotation (demo_conn [] []) "Image" (PTuple [1; 2])
    (PAtom (AStr "stain")) (AStr "ns1") []
  = (Raised (TypeError "object_ids must be list or integer"), []) /\
  multi_post_map_annotation (demo_conn [] []) "Image" (PList [1; 2])
    (PAtom (AStr "stain")) (AStr "ns1") []
  = (Raised (TypeError "Annotation must be of type `dict`"), []) /\
  added (multi_post_map_annotation (demo_conn [] []) "Image" (PTuple [1; 2])
           (PAtom (AStr "stain")) (AStr "ns1")) [] = [].
Proof.
  pose proof (batch_validation (demo_conn [] []) "Image" (PTuple [1; 2])
                (PAtom (AStr "stain")) (AStr "ns1") [])
    as (_ & Hids & _ & Hkv & Hraise).
  split; [apply Hids; reflexivity|].
  split; [apply (Hkv eq_refl 1 [2])|].
  apply (Hraise (TypeError "object_ids must be list or integer") []).
  apply Hids; reflexivity.
Defined.

(** ** Construction *)

Lemma init_spec conn target project dataset screen ann ns args kwargs t :
  Importer.init conn target project dataset screen ann ns args kwargs t =
  if truthy project && negb (truthy dataset)
  then (Raised (ValueError "Cannot define project but no dataset!"),
        t ++ [EGetSession])
  else (OK (run_importer conn target project dataset screen ann ns args
              kwargs),
        t ++ [EGetSession]).
Proof.
  unfold Importer.init. cbv zeta.
  rewrite (bind_OK _ _ t (t ++ [EGetSession]) (session_uuid conn))
    by reflexivity.
  destruct (truthy project && negb (truthy dataset)); reflexivity.
Qed.

(** ** Organizing images *)

Lemma added_nil {A : Type} (m : M A) (t : trace) (r : result A) :
  m t = (r, t) -> added m t = [].
Proof.
  intros H. apply (added_app m t [] r). now rewrite app_nil_r.
Qed.

Lemma move_image_events conn orphans dataset_id im_id t :
  Importer.move_image conn orphans dataset_id im_id t =
  (OK tt, t ++ image_events orphans dataset_id im_id).
Proof.
  unfold Importer.move_image, image_events.
  destruct (Importer.mem im_id orphans); cbn [negb].
  - destruct dataset_id as [ds|]; cbn [truthy_id].
    + destruct (ds =? 0); cbn [negb].
      * unfold ret. now rewrite app_nil_r.
      * cbv [link_images_to_dataset print emit bind].
        now rewrite <- app_assoc.
    + unfold ret. now rewrite app_nil_r.
  - reflexivity.
Qed.

(** The project part of the resolution returns, without linking or
    querying. *)
Lemma resolve_project_returns conn (project : atom) (t : trace) :
  exists (project_id : option Z) (r : list event),
    (if truthy project
     then p <- set_or_create_project conn project ;; ret (Some p)
     else ret None) t = (OK project_id, t ++ r) /\
    quiet r.
Proof.
  destruct (truthy project) eqn:Hp.
  - destruct (truthy_inv _ Hp) as [(name & -> & _) | (n & -> & _)].
    + rewrite (bind_OK _ _ _ _ _ (set_or_create_project_str conn name t)).
      now eexists _, _.
    + exists (Some n), []. now rewrite app_nil_r.
  - exists None, []. now rewrite app_nil_r.
Qed.

(** So does the dataset part; the identifier it yields is absent exactly
    when the reference fails [if self.dataset:]. *)
Lemma resolve_dataset_returns conn project_id (dataset : atom) (t : trace) :
  exists (dataset_id : option Z) (r : list event),
    (if truthy dataset
     then d <- set_or_create_dataset conn project_id dataset ;; ret (Some d)
     else ret None) t = (OK dataset_id, t ++ r) /\
    quiet r /\
    (truthy dataset = false -> dataset_id = None) /\
    (forall n, dataset = AInt n -> n <> 0 -> dataset_id = Some n) /\
    (forall name, dataset = AStr name -> name <> ""%string ->
                  dataset_id = Some (new_id conn t) /\
                  exists parent, In (EPostDataset name parent) r).
Proof.
  destruct (truthy dataset) eqn:Hd.
  - destruct (truthy_inv _ Hd) as [(name & -> & _) | (n & -> & _)].
    + rewrite (bind_OK _ _ _ _ _
                 (set_or_create_dataset_str conn project_id name t)).
      eexists _, _. split; [reflexivity|].
      split; [reflexivity|].
      split; [discriminate|].
      split; [discriminate|].
      intros ? [= <-] _. split; [reflexivity|].
      eexists. left. reflexivity.
    + exists (Some n), []. rewrite app_nil_r.
      split; [reflexivity|].
      split; [reflexivity|].
      split; [discriminate|].
      split; [now intros ? [= <-] | discriminate].
  - exists None, []. rewrite app_nil_r.
    split; [reflexivity|].
    split; [reflexivity|].
    split; [reflexivity|].
    split; intros x -> Hne; cbn in Hd.
    + apply Z.eqb_neq in Hne. rewrite Hne in Hd. discriminate.
    + apply String.eqb_neq in Hne. rewrite Hne in Hd. discriminate.
Qed.

Lemma quiet_app (r1 r2 : list event) : quiet r1 -> quiet r2 -> quiet (r1 ++ r2).
Proof. unfold quiet. intros H1 H2. now rewrite filter_app, H1, H2. Qed.

(** Resolution returns; it creates at most a project and a dataset, and
    neither links nor queries. *)
Lemma resolve_hierarchy_returns conn self t :
  exists dataset_id r,
    resolve_hierarchy conn self t = (OK dataset_id, t ++ r) /\
    quiet r /\
    (truthy (Importer.dataset self) = false -> dataset_id = None) /\
    (forall n, Importer.dataset self = AInt n -> n <> 0 ->
               dataset_id = Some n) /\
    (forall name, Importer.dataset self = AStr name -> name <> ""%string ->
                  exists parent t',
                    dataset_id = Some (new_id conn t') /\
                    In (EPostDataset name parent) r).
Proof.
  unfold resolve_hierarchy.
  destruct (resolve_project_returns conn (Importer.project self) t)
    as (project_id & rp & Hproject & Hrp).
  rewrite (bind_OK _ _ _ _ _ Hproject).
  destruct (resolve_dataset_returns conn project_id (Importer.dataset self)
              (t ++ rp))
    as (dataset_id & rd & Hdataset & Hrd & Hnone & Hint & Hstr).
  rewrite Hdataset, <- app_assoc.
  exists dataset_id, (rp ++ rd).
  split; [reflexivity|].
  split; [now apply quiet_app|].
  split; [assumption|].
  split; [assumption|].
  intros name Hname Hne.
  destruct (Hstr name Hname Hne) as (Hid & parent & Hin).
  exists parent, (t ++ rp). split; [assumption|].
  apply in_or_app. now right.
Qed.

Lemma organize_images_unfold conn self t :
  Importer.organize_images conn self t =
  match Importer.image_ids self with
  | Some ((_ :: _) as ids) =>
      match resolve_hierarchy conn self (t ++ [EGetImageIds]) with
      | (OK dataset_id, t') =>
          (OK true,
           t' ++ flat_map (image_events (orphan_ids conn t) dataset_id) ids)
      | (Raised e, t') => (Raised e, t')
      end
  | _ => (OK false, t ++ [ELog Error "No image ids to organize"])
  end.
Proof.
  unfold Importer.organize_images.
  destruct (Importer.image_ids self) as [[|x l]|]; try reflexivity.
  cbn [truthy_ids nonempty negb].
  rewrite (bind_OK _ _ t (t ++ [EGetImageIds]) (orphan_ids conn t))
    by reflexivity.
  transitivity
    (bind (resolve_hierarchy conn self)
       (fun dataset_id =>
          for_each (x :: l)
            (Importer.move_image conn (orphan_ids conn t) dataset_id) ;;
          ret true)
       (t ++ [EGetImageIds])).
  { unfold resolve_hierarchy. now rewrite bind_bind. }
  destruct (resolve_hierarchy conn self (t ++ [EGetImageIds]))
    as [[dataset_id|e] t'] eqn:Hres.
  - rewrite (bind_OK _ _ _ _ _ Hres).
    now rewrite (bind_OK _ _ _ _ _
                   (for_each_emits _ _ (move_image_events conn _ dataset_id)
                      (x :: l) t')).
  - now rewrite (bind_Raised _ _ _ _ _ Hres).
Qed.

Lemma organize_images_nonempty conn self x l t :
  Importer.image_ids self = Some (x :: l) ->
  exists dataset_id r,
    Importer.organize_images conn self t =
      (OK true,
       t ++ EGetImageIds :: r
         ++ flat_map (image_events (orphan_ids conn t) dataset_id) (x :: l)) /\
    quiet r /\
    (truthy (Importer.dataset self) = false -> dataset_id = None) /\
    (forall n, Importer.dataset self = AInt n -> n <> 0 ->
               dataset_id = Some n) /\
    (forall name, Importer.dataset self = AStr name -> name <> ""%string ->
                  exists parent t',
                    dataset_id = Some (new_id conn t') /\
                    In (EPostDataset name parent) r).
Proof.
  intros Hids.
  destruct (resolve_hierarchy_returns conn self (t ++ [EGetImageIds]))
    as (dataset_id & r & Hres & Hquiet & Hrest).
  exists dataset_id, r.
  split; [|now split].
  rewrite organize_images_unfold, Hids, Hres.
  now rewrite <- !app_assoc.
Qed.

Lemma filter_link_image_events_none orphans dataset_id ids :
  (forall id, In id ids -> Importer.mem id orphans = false) ->
  filter is_link (flat_map (image_events orphans dataset_id) ids) = [].
Proof.
  induction ids as [|id ids IH]; intros H; cbn [flat_map]; [reflexivity|].
  rewrite filter_app, IH by (intros; apply H; now right).
  unfold image_events. rewrite (H id) by now left. reflexivity.
Qed.

Lemma filter_link_image_events_unset orphans dataset_id ids :
  truthy_id dataset_id = false ->
  filter is_link (flat_map (image_events orphans dataset_id) ids) = [].
Proof.
  intros Hds.
  induction ids as [|id ids IH]; cbn [flat_map]; [reflexivity|].
  rewrite filter_app, IH. unfold image_events.
  destruct (Importer.mem id orphans); [|reflexivity].
  destruct dataset_id as [ds|]; [|reflexivity].
  cbn in Hds. apply negb_false_iff in Hds. now rewrite Hds.
Qed.

Lemma filter_link_image_events_all orphans ds ids :
  ds <> 0 ->
  (forall id, In id ids -> Importer.mem id orphans = true) ->
  filter is_link (flat_map (image_events orphans (Some ds)) ids)
  = map (fun id => ELinkImages [id] ds) ids.
Proof.
  intros Hds. apply Z.eqb_neq in Hds.
  induction ids as [|id ids IH]; intros H; cbn [flat_map map]; [reflexivity|].
  rewrite filter_app, IH by (intros; apply H; now right).
  unfold image_events. rewrite (H id) by now left. rewrite Hds. reflexivity.
Qed.

Lemma filter_added_organize_images (p : event -> bool) conn self x l t
    dataset_id r :
  Importer.organize_images conn self t =
    (OK true,
     t ++ EGetImageIds :: r
       ++ flat_map (image_events (orphan_ids conn t) dataset_id) (x :: l)) ->
  filter p (added (Importer.organize_images conn self) t)
  = filter p [EGetImageIds] ++ filter p r
    ++ filter p (flat_map (image_events (orphan_ids conn t) dataset_id)
                   (x :: l)).
Proof.
  intros H. rewrite (added_app _ _ _ _ H).
  change (EGetImageIds :: r ++ ?k) with ([EGetImageIds] ++ r ++ k).
  now rewrite !filter_app.
Qed.

Lemma quiet_no_link r : quiet r -> filter is_link r = [].
Proof.
  unfold quiet. induction r as [|e r IH]; cbn; [reflexivity|].
  destruct (is_link e); cbn; [discriminate|].
  destruct (is_orphan_query e); [discriminate | exact IH].
Qed.

Lemma quiet_no_query r : quiet r -> filter is_orphan_query r = [].
Proof.
  unfold quiet. induction r as [|e r IH]; cbn; [reflexivity|].
  destruct (is_orphan_query e), (is_link e); cbn; try discriminate.
  exact IH.
Qed.

Lemma image_events_no_query orphans dataset_id ids :
  filter is_orphan_query (flat_map (image_events orphans dataset_id) ids) = [].
Proof.
  induction ids as [|id ids IH]; cbn [flat_map]; [reflexivity|].
  rewrite filter_app, IH. unfold image_events.
  destruct (Importer.mem id orphans); [|reflexivity].
  destruct dataset_id as [ds|]; [|reflexivity].
  now destruct (ds =? 0).
Qed.

(** C7.  With no image identifiers, absent or empty, [organize_images]
    returns false having only logged an error: no orphan query, no
    resolution, no link.  With at least one identifier it returns true,
    however many of them the loop skips. *)
Theorem organize_images_result (conn : BlitzGateway) (self : Importer.t)
    (t : trace) :
  (truthy_ids (Importer.image_ids self) = false ->
   Importer.organize_images conn self t
     = (OK false, t ++ [ELog Error "No image ids to organize"]) /\
   filter is_remote (added (Importer.organize_images conn self) t) = []) /\
  (forall x l,
     Importer.image_ids self = Some (x :: l) ->
     fst (Importer.organize_images conn self t) = OK true).
Proof.
  split.
  - intros Hids.
    assert (H : Importer.organize_images conn self t
                = (OK false, t ++ [ELog Error "No image ids to organize"])).
    { rewrite organize_images_unfold.
      destruct (Importer.image_ids self) as [[|x l]|];
        [reflexivity | discriminate | reflexivity]. }
    split; [exact H|]. now rewrite (added_app _ _ _ _ H).
  - intros x l Hids.
    destruct (organize_images_nonempty conn self x l t Hids)
      as (dataset_id & r & H & _).
    now rewrite H.
Qed.

Lemma organize_images_result_witness :
  let self ids :=
    Importer.set_image_ids
      (new_importer "/data/a.tif" ANone (AStr "Exp1") ANone (PAtom ANone)
         ANone [] []) ids in
  Importer.organize_images (demo_conn [] [101]) (self (Some [])) []
    = (OK false, [ELog Error "No image ids to organize"]) /\
  fst (Importer.organize_images (demo_conn [] [101]) (self (Some [101; 102]))
         []) = OK true.
Proof.
  intros self. split.
  - apply (organize_images_result (demo_conn [] [101]) (self (Some [])) []).
    reflexivity.
  - apply (organize_images_result (demo_conn [] [101])
             (self (Some [101; 102])) [] ) with (x := 101) (l := [102]).
    reflexivity.
Defined.

(** The resolution does what [project_part] and [dataset_part] spell
    out. *)
Lemma resolve_hierarchy_exact conn self t :
  resolve_hierarchy conn self t =
  (OK (fst (dataset_part conn
              (fst (project_part conn (Importer.project self) t))
              (Importer.dataset self)
              (t ++ snd (project_part conn (Importer.project self) t)))),
   t ++ snd (project_part conn (Importer.project self) t)
     ++ snd (dataset_part conn
               (fst (project_part conn (Importer.project self) t))
               (Importer.dataset self)
               (t ++ snd (project_part conn (Importer.project self) t)))).
Proof.
  unfold resolve_hierarchy.
  assert (Hproject :
    (if truthy (Importer.project self)
     then p <- set_or_create_project conn (Importer.project self) ;;
          ret (Some p)
     else ret None) t
    = (OK (fst (project_part conn (Importer.project self) t)),
       t ++ snd (project_part conn (Importer.project self) t))).
  { unfold project_part.
    destruct (Importer.project self) as [|n|name]; cbn [truthy].
    - unfold ret. now rewrite app_nil_r.
    - destruct (negb (n =? 0)); cbn [fst snd]; unfold ret, bind;
        cbn; now rewrite app_nil_r.
    - destruct (negb (String.eqb name "")); cbn [fst snd].
      + now rewrite (bind_OK _ _ _ _ _
                       (set_or_create_project_str conn name t)).
      + unfold ret. now rewrite app_nil_r. }
  rewrite (bind_OK _ _ _ _ _ Hproject).
  set (project_id := fst (project_part conn (Importer.project self) t)).
  set (t' := t ++ snd (project_part conn (Importer.project self) t)).
  rewrite app_assoc. fold t'.
  unfold dataset_part.
  destruct (Importer.dataset self) as [|n|name]; cbn [truthy].
  - unfold ret. now rewrite app_nil_r.
  - destruct (negb (n =? 0)); cbn [fst snd]; unfold ret, bind;
      cbn; now rewrite app_nil_r.
  - destruct (negb (String.eqb name "")); cbn [fst snd].
    + rewrite (bind_OK _ _ _ _ _
                 (set_or_create_dataset_str conn project_id name t')).
      unfold ret. do 3 f_equal.
      destruct project_id as [p|]; cbn [truthy_id]; [|reflexivity].
      now destruct (p =? 0).
    + unfold ret. now rewrite app_nil_r.
Qed.

Lemma project_part_quiet conn project t :
  quiet (snd (project_part conn project t)).
Proof.
  unfold project_part.
  destruct project as [|n|name]; cbn [truthy]; try reflexivity.
  - now destruct (negb (n =? 0)).
  - now destruct (negb (String.eqb name "")).
Qed.

Lemma dataset_part_quiet conn project_id dataset t :
  quiet (snd (dataset_part conn project_id dataset t)).
Proof.
  unfold dataset_part.
  destruct dataset as [|n|name]; cbn [truthy]; try reflexivity.
  - now destruct (negb (n =? 0)).
  - now destruct (negb (String.eqb name "")).
Qed.

(** C8, as the code has it.  With at least one image identifier,
    [organize_images] queries the orphans once, first, resolves the
    project and then the dataset as [project_part] and [dataset_part]
    say, without linking, then goes through the identifiers in order,
    adding for each what [image_events] says: an error message for an
    identifier that is not an orphan, a link to the resolved dataset
    followed by a message for an orphan when the dataset identifier is
    set and not zero, nothing otherwise.  The dataset identifier is
    unset when the reference is absent, zero or the empty name; it is
    the reference when that is a non-zero identifier; for a name it is
    the identifier the server answers to the creation call for that
    name, the last call before the loop.  So when every identifier is an
    orphan and the dataset identifier is not zero, every identifier is
    linked to it, in order; when none is an orphan, or the dataset
    identifier is unset or zero, nothing is linked. *)
Theorem organize_images_links_orphans (conn : BlitzGateway)
    (self : Importer.t) (x : Z) (l : list Z) (t : trace) :
  Importer.image_ids self = Some (x :: l) ->
  let orphans := orphan_ids conn t in
  let done := added (Importer.organize_images conn self) t in
  let t1 := t ++ [EGetImageIds] in
  let project := project_part conn (Importer.project self) t1 in
  let dataset :=
    dataset_part conn (fst project) (Importer.dataset self)
      (t1 ++ snd project) in
  let dataset_id := fst dataset in
  Importer.organize_images conn self t =
    (OK true,
     t ++ EGetImageIds :: (snd project ++ snd dataset)
       ++ flat_map (image_events orphans dataset_id) (x :: l)) /\
  filter is_link (snd project ++ snd dataset) = [] /\
  filter is_orphan_query done = [EGetImageIds] /\
  (truthy (Importer.dataset self) = false -> dataset_id = None) /\
  (forall n, Importer.dataset self = AInt n -> n <> 0 ->
             dataset_id = Some n /\ snd dataset = []) /\
  (forall name, Importer.dataset self = AStr name -> name <> ""%string ->
     dataset_id = Some (new_id conn (t1 ++ snd project)) /\
     snd dataset =
       [EPostDataset name
          (match fst project with
           | Some p => if p =? 0 then None else Some p
           | None => None
           end);
        EPrint ("Created new Dataset:"
                ++ str_of_Z (new_id conn (t1 ++ snd project)))]) /\
  (forall ds,
     dataset_id = Some ds -> ds <> 0 ->
     (forall id, In id (x :: l) -> Importer.mem id orphans = true) ->
     filter is_link done = map (fun id => ELinkImages [id] ds) (x :: l)) /\
  ((forall id, In id (x :: l) -> Importer.mem id orphans = false) ->
   filter is_link done = []) /\
  (truthy_id dataset_id = false -> filter is_link done = []).
Proof.
  intros Hids orphans done t1 project dataset dataset_id.
  assert (Hrun :
    Importer.organize_images conn self t =
    (OK true,
     t ++ EGetImageIds :: (snd project ++ snd dataset)
       ++ flat_map (image_events orphans dataset_id) (x :: l))).
  { rewrite organize_images_unfold, Hids, resolve_hierarchy_exact.
    fold t1. fold project. fold dataset. fold dataset_id.
    unfold t1. now rewrite <- !app_assoc. }
  assert (Hquiet : quiet (snd project ++ snd dataset)).
  { apply quiet_app; [apply project_part_quiet | apply dataset_part_quiet]. }
  pose proof (quiet_no_link _ Hquiet) as Hr.
  assert (Hlinks :
    filter is_link done
    = filter is_link (flat_map (image_events orphans dataset_id) (x :: l))).
  { unfold done.
    rewrite (filter_added_organize_images is_link _ _ _ _ _ _ _ Hrun), Hr.
    reflexivity. }
  split; [exact Hrun|].
  split; [exact Hr|].
  split.
  { unfold done.
    rewrite (filter_added_organize_images is_orphan_query _ _ _ _ _ _ _ Hrun).
    now rewrite (quiet_no_query _ Hquiet), image_events_no_query. }
  split.
  { intros Hd. unfold dataset_id, dataset, dataset_part. now rewrite Hd. }
  split.
  { intros n Hn Hne. unfold dataset_id, dataset, dataset_part.
    rewrite Hn. cbn [truthy]. apply Z.eqb_neq in Hne. rewrite Hne.
    now split. }
  split.
  { intros name Hname Hne. unfold dataset_id, dataset, dataset_part.
    rewrite Hname. cbn [truthy]. apply String.eqb_neq in Hne. rewrite Hne.
    now split. }
  split; [|split].
  - intros ds Hds Hne Hall. rewrite Hlinks, Hds.
    now apply filter_link_image_events_all.
  - intros Hnot. rewrite Hlinks. now apply filter_link_image_events_none.
  - intros Hunset. rewrite Hlinks. now apply filter_link_image_events_unset.
Qed.

Lemma organize_images_links_orphans_witness :
  filter is_link
    (added
       (Importer.organize_images (demo_conn [] [101; 102])
          (Importer.set_image_ids
             (new_importer "/data/a.tif" ANone (AInt 7) ANone (PAtom ANone)
                ANone [] [])
             (Some [101; 102]))) [])
  = [ELinkImages [101] 7; ELinkImages [102] 7] /\
  filter (fun e => is_creation e || is_link e)
    (added
       (Importer.organize_images (demo_conn [] [101; 102])
          (Importer.set_image_ids
             (new_importer "/data/a.tif" ANone (AStr "Exp1") ANone
                (PAtom ANone) ANone [] [])
             (Some [101; 102]))) [])
  = [EPostDataset "Exp1" None;
     ELinkImages [101] 1001; ELinkImages [102] 1001].
Proof.
  split.
  - destruct (organize_images_links_orphans (demo_conn [] [101; 102])
                (Importer.set_image_ids
                   (new_importer "/data/a.tif" ANone (AInt 7) ANone
                      (PAtom ANone) ANone [] [])
                   (Some [101; 102])) 101 [102] [] eq_refl)
      as (_ & _ & _ & _ & Hint & _ & Hall & _).
    apply (Hall 7).
    + apply (Hint 7); [reflexivity | discriminate].
    + discriminate.
    + intros id [<-|[<-|[]]]; reflexivity.
  - destruct (organize_images_links_orphans (demo_conn [] [101; 102])
                (Importer.set_image_ids
                   (new_importer "/data/a.tif" ANone (AStr "Exp1") ANone
                      (PAtom ANone) ANone [] [])
                   (Some [101; 102])) 101 [102] [] eq_refl)
      as (Hrun & _).
    rewrite (added_app _ _ _ _ Hrun). reflexivity.
Defined.

(** C8 as stated fails: the dataset 0 is given and both images are
    orphans, yet neither is linked. *)
Lemma dataset_zero_orphans_not_linked :
  let self :=
    Importer.set_image_ids
      (new_importer "/data/a.tif" ANone (AInt 0) ANone (PAtom ANone) ANone
         [] [])
      (Some [101; 102]) in
  Importer.mem 101 [101; 102] = true /\
  Importer.mem 102 [101; 102] = true /\
  Importer.organize_images (demo_conn [] [101; 102]) self []
    = (OK true, [EGetImageIds]).
Proof. repeat split. Qed.

(** ** Submission and the run *)

Lemma Importer_ezimport_spec conn self t :
  Importer.ezimport conn self t =
  let docs := submitted conn self t in
  let t1 :=
    t ++ [EGetSession;
          EImport (Importer.arguments_of conn self (tmp_name conn t))] in
  if nonempty docs
  then (OK (true, after_import self docs),
        t1 ++ [EPrint ("Imported " ++ Importer.file_path self)])
  else (OK (false, Importer.set_import_result self docs),
        t1 ++ [ELog Error ("Import of " ++ Importer.file_path self
                           ++ " has failed!")]).
Proof.
  unfold Importer.ezimport, submitted, ask, get_session_uuid, call.
  unfold bind at 1 2 3. cbv zeta.
  rewrite <- (app_assoc t [EGetSession]). cbn [app].
  destruct (nonempty _); reflexivity.
Qed.

Lemma ezimport_ctl_spec conn target project dataset screen ann ns args
    kwargs t :
  ezimport_ctl conn target project dataset screen ann ns args kwargs t =
  if truthy project && negb (truthy dataset)
  then (Raised (ValueError "Cannot define project but no dataset!"),
        t ++ [EGetSession])
  else
    let imp_ctl :=
      run_importer conn target project dataset screen ann ns args kwargs in
    let docs := submitted conn imp_ctl (t ++ [EGetSession]) in
    if nonempty docs
    then
      (if truthy screen
       then plate_pipeline conn (after_import imp_ctl docs)
       else image_pipeline conn (after_import imp_ctl docs))
        (imported_trace conn imp_ctl t)
    else
      (OK (None, Importer.set_import_result imp_ctl docs),
       t ++ [EGetSession; EGetSession;
             EImport (Importer.arguments_of conn imp_ctl
                        (tmp_name conn (t ++ [EGetSession])));
             ELog Error ("Import of " ++ abspath conn target
                         ++ " has failed!")]).
Proof.
  unfold ezimport_ctl.
  pose proof (init_spec conn target project dataset screen ann ns args
                kwargs t) as Hinit.
  destruct (truthy project && negb (truthy dataset)).
  - now rewrite (bind_Raised _ _ _ _ _ Hinit).
  - rewrite (bind_OK _ _ _ _ _ Hinit).
    set (imp_ctl := run_importer _ _ _ _ _ _ _ _ _).
    pose proof (Importer_ezimport_spec conn imp_ctl (t ++ [EGetSession]))
      as Hsub.
    cbv zeta in *.
    rewrite <- !app_assoc in Hsub. cbn [app] in Hsub.
    destruct (nonempty (submitted conn imp_ctl (t ++ [EGetSession])));
      rewrite (bind_OK _ _ _ _ _ Hsub); cbn [fst snd]; [|reflexivity].
    change (Importer.screen
              (after_import imp_ctl
                 (submitted conn imp_ctl (t ++ [EGetSession]))))
      with screen.
    destruct (truthy screen); reflexivity.
Qed.

Lemma ezimport_seen conn target project dataset screen ann ns args kwargs t :
  ezimport conn target project dataset screen ann ns args kwargs t =
  seen (ezimport_ctl conn target project dataset screen ann ns args kwargs t).
Proof.
  unfold ezimport, seen, bind.
  now destruct (ezimport_ctl _ _ _ _ _ _ _ _ _ t) as [[r|e] t'].
Qed.

(** ** Annotating *)

Lemma annotate_images_skipped conn self t :
  skipped (Importer.ann self) (Importer.ns self) = true ->
  Importer.annotate_images conn self t =
  (OK None,
   t ++ [ELog Warning "Missing annotation or namespace, skipping annotations"]).
Proof.
  unfold Importer.annotate_images, skipped. now intros ->.
Qed.

Lemma annotate_plates_skipped conn self t :
  skipped (Importer.ann self) (Importer.ns self) = true ->
  Importer.annotate_plates conn self t =
  (OK None,
   t ++ [ELog Warning "Missing annotation or namespace, skipping annotations"]).
Proof.
  unfold Importer.annotate_plates, skipped. now intros ->.
Qed.

Ltac no_save H :=
  erewrite added_nil in H; [contradiction | reflexivity].

(** An annotation step that persists a record was not skipped and was
    given a dictionary. *)
Lemma annotate_images_saves conn self t n p :
  In (ESaveMapAnn n p) (added (Importer.annotate_images conn self) t) ->
  skipped (Importer.ann self) (Importer.ns self) = false /\
  exists d, Importer.ann self = PDict d.
Proof.
  intros Hin. unfold Importer.annotate_images in Hin.
  change (negb (truthy_val (Importer.ann self))
          || negb (truthy (Importer.ns self)))
    with (skipped (Importer.ann self) (Importer.ns self)) in Hin.
  destruct (skipped (Importer.ann self) (Importer.ns self)).
  - erewrite added_app in Hin by reflexivity.
    destruct Hin as [Hin|[]]; discriminate.
  - split; [reflexivity|].
    destruct (Importer.image_ids self) as [[|x l]|]; try no_save Hin.
    destruct (Importer.ann self) as [a|l'|l'|d];
      [no_save Hin | no_save Hin | no_save Hin | now exists d].
Qed.

Lemma annotate_plates_saves conn self t n p :
  In (ESaveMapAnn n p) (added (Importer.annotate_plates conn self) t) ->
  skipped (Importer.ann self) (Importer.ns self) = false /\
  exists d, Importer.ann self = PDict d.
Proof.
  intros Hin. unfold Importer.annotate_plates in Hin.
  change (negb (truthy_val (Importer.ann self))
          || negb (truthy (Importer.ns self)))
    with (skipped (Importer.ann self) (Importer.ns self)) in Hin.
  destruct (skipped (Importer.ann self) (Importer.ns self)).
  - erewrite added_app in Hin by reflexivity.
    destruct Hin as [Hin|[]]; discriminate.
  - split; [reflexivity|].
    destruct (Importer.plate_ids self) as [[|x l]|]; try no_save Hin.
    destruct (Importer.ann self) as [a|l'|l'|d];
      [no_save Hin | no_save Hin | no_save Hin | now exists d].
Qed.

Lemma skipped_false ann ns :
  skipped ann ns = false -> truthy_val ann = true /\ truthy ns = true.
Proof.
  unfold skipped. intros H. apply orb_false_iff in H as [Ha Hn].
  now rewrite negb_false_iff in Ha, Hn.
Qed.

Lemma skipped_true ann ns :
  truthy_val ann = false \/ truthy ns = false -> skipped ann ns = true.
Proof.
  unfold skipped. intros [-> | ->]; [reflexivity | apply orb_true_r].
Qed.

Lemma get_plate_ids_with_annotation self ann ns t :
  Importer.get_plate_ids (with_annotation self ann ns) t =
  match Importer.get_plate_ids self t with
  | (OK r, t') => (OK (fst r, with_annotation (snd r) ann ns), t')
  | (Raised e, t') => (Raised e, t')
  end.
Proof.
  unfold Importer.get_plate_ids, Importer.first_document, bind.
  cbn [with_annotation Importer.import_result].
  destruct (Importer.import_result self) as [|d docs]; [reflexivity|].
  cbn. now destruct (Plate d).
Qed.

Lemma get_my_image_ids_with_annotation self ann ns t :
  Importer.get_my_image_ids (with_annotation self ann ns) t =
  match Importer.get_my_image_ids self t with
  | (OK r, t') => (OK (fst r, with_annotation (snd r) ann ns), t')
  | (Raised e, t') => (Raised e, t')
  end.
Proof.
  unfold Importer.get_my_image_ids, Importer.first_document, bind.
  cbn [with_annotation Importer.import_result].
  destruct (Importer.import_result self) as [|d docs]; [reflexivity|].
  cbn. now destruct (Image d).
Qed.

(** The organizing steps do not look at the annotation. *)
Lemma organize_plates_with_annotation conn self ann ns :
  Importer.organize_plates conn (with_annotation self ann ns)
  = Importer.organize_plates conn self.
Proof. reflexivity. Qed.

Lemma organize_images_with_annotation conn self ann ns :
  Importer.organize_images conn (with_annotation self ann ns)
  = Importer.organize_images conn self.
Proof. reflexivity. Qed.

(** A pipeline whose annotation step is skipped does what it does with
    no annotation given at all. *)
Lemma plate_pipeline_skipped conn self ann ns t :
  skipped ann ns = true ->
  seen (plate_pipeline conn (with_annotation self ann ns) t) =
  seen (plate_pipeline conn (with_annotation self (PAtom ANone) ANone) t).
Proof.
  intros Hskip. unfold plate_pipeline.
  pose proof (get_plate_ids_with_annotation self ann ns t) as H1.
  pose proof (get_plate_ids_with_annotation self (PAtom ANone) ANone t) as H2.
  destruct (Importer.get_plate_ids self t) as [[[ids s1]|e] t1].
  2:{ now rewrite (bind_Raised _ _ _ _ _ H1), (bind_Raised _ _ _ _ _ H2). }
  rewrite (bind_OK _ _ _ _ _ H1), (bind_OK _ _ _ _ _ H2). cbn [fst snd].
  rewrite !organize_plates_with_annotation.
  destruct (Importer.organize_plates conn s1 t1) as [[b|e] t2] eqn:Horg.
  2:{ now rewrite !(bind_Raised _ _ _ _ _ Horg). }
  rewrite !(bind_OK _ _ _ _ _ Horg).
  rewrite (bind_OK _ _ _ _ _
             (annotate_plates_skipped conn (with_annotation s1 ann ns) t2
                Hskip)).
  rewrite (bind_OK _ _ _ _ _
             (annotate_plates_skipped conn
                (with_annotation s1 (PAtom ANone) ANone) t2 eq_refl)).
  reflexivity.
Qed.

Lemma image_pipeline_skipped conn self ann ns t :
  skipped ann ns = true ->
  seen (image_pipeline conn (with_annotation self ann ns) t) =
  seen (image_pipeline conn (with_annotation self (PAtom ANone) ANone) t).
Proof.
  intros Hskip. unfold image_pipeline.
  pose proof (get_my_image_ids_with_annotation self ann ns t) as H1.
  pose proof (get_my_image_ids_with_annotation self (PAtom ANone) ANone t)
    as H2.
  destruct (Importer.get_my_image_ids self t) as [[[ids s1]|e] t1].
  2:{ now rewrite (bind_Raised _ _ _ _ _ H1), (bind_Raised _ _ _ _ _ H2). }
  rewrite (bind_OK _ _ _ _ _ H1), (bind_OK _ _ _ _ _ H2). cbn [fst snd].
  rewrite !organize_images_with_annotation.
  destruct (Importer.organize_images conn s1 t1) as [[b|e] t2] eqn:Horg.
  2:{ now rewrite !(bind_Raised _ _ _ _ _ Horg). }
  rewrite !(bind_OK _ _ _ _ _ Horg).
  rewrite (bind_OK _ _ _ _ _
             (annotate_images_skipped conn (with_annotation s1 ann ns) t2
                Hskip)).
  rewrite (bind_OK _ _ _ _ _
             (annotate_images_skipped conn
                (with_annotation s1 (PAtom ANone) ANone) t2 eq_refl)).
  reflexivity.
Qed.

Lemma ezimport_skipped conn target project dataset screen ann ns args kwargs
    t :
  skipped ann ns = true ->
  ezimport conn target project dataset screen ann ns args kwargs t =
  ezimport conn target project dataset screen (PAtom ANone) ANone args kwargs
    t.
Proof.
  intros Hskip. rewrite !ezimport_seen, !ezimport_ctl_spec.
  destruct (truthy project && negb (truthy dataset)); [reflexivity|].
  cbv zeta.
  set (imp := run_importer conn target project dataset screen ann ns args
                kwargs).
  set (imp0 := run_importer conn target project dataset screen (PAtom ANone)
                 ANone args kwargs).
  change (submitted conn imp (t ++ [EGetSession]))
    with (submitted conn imp0 (t ++ [EGetSession])).
  destruct (nonempty (submitted conn imp0 (t ++ [EGetSession])));
    [|reflexivity].
  change (imported_trace conn imp t) with (imported_trace conn imp0 t).
  change (after_import imp (submitted conn imp0 (t ++ [EGetSession])))
    with (with_annotation
            (after_import imp0 (submitted conn imp0 (t ++ [EGetSession])))
            ann ns).
  destruct (truthy screen).
  - etransitivity; [now apply plate_pipeline_skipped | reflexivity].
  - etransitivity; [now apply image_pipeline_skipped | reflexivity].
Qed.

(** C9.  When the mapping or the namespace is absent or empty, the
    annotation step of either kind returns no identifier, raises nothing
    and only logs a warning, and the run returns what it returns, and
    does what it does, with no annotation given at all.  A step that
    persists a record was given both a non-empty mapping and a non-empty
    namespace. *)
Theorem annotation_needs_map_and_namespace (conn : BlitzGateway)
    (self : Importer.t) (target : string) (project dataset screen : atom)
    (ann : pyval) (ns : atom) (args : list string)
    (kwargs : list (string * string)) (t : trace) :
  (truthy_val (Importer.ann self) = false \/
   truthy (Importer.ns self) = false ->
   Importer.annotate_images conn self t
     = (OK None,
        t ++ [ELog Warning
                "Missing annotation or namespace, skipping annotations"]) /\
   Importer.annotate_plates conn self t
     = (OK None,
        t ++ [ELog Warning
                "Missing annotation or namespace, skipping annotations"])) /\
  (forall n p,
     In (ESaveMapAnn n p) (added (Importer.annotate_images conn self) t) \/
     In (ESaveMapAnn n p) (added (Importer.annotate_plates conn self) t) ->
     truthy_val (Importer.ann self) = true /\
     truthy (Importer.ns self) = true) /\
  (truthy_val ann = false \/ truthy ns = false ->
   ezimport conn target project dataset screen ann ns args kwargs t
   = ezimport conn target project dataset screen (PAtom ANone) ANone args
       kwargs t).
Proof.
  split; [|split].
  - intros H. apply skipped_true in H. split.
    + now apply annotate_images_skipped.
    + now apply annotate_plates_skipped.
  - intros n p [H|H]; apply skipped_false.
    + now apply (annotate_images_saves conn self t n p).
    + now apply (annotate_plates_saves conn self t n p).
  - intros H. apply ezimport_skipped. now apply skipped_true.
Qed.

Lemma annotation_needs_map_and_namespace_witness :
  Importer.annotate_images (demo_conn [] [])
    (Importer.set_image_ids
       (new_importer "/data/a.tif" ANone ANone ANone
          (PDict [(AStr "stain", Scalar (AStr "DAPI"))]) ANone [] [])
       (Some [101])) []
  = (OK None,
     [ELog Warning "Missing annotation or namespace, skipping annotations"]) /\
  ezimport (demo_conn [mkDoc (Some [101]) (Some [])] [101]) "/data/a.tif"
    ANone (AInt 7) ANone (PDict []) (AStr "ns1") [] [] []
  = ezimport (demo_conn [mkDoc (Some [101]) (Some [])] [101]) "/data/a.tif"
      ANone (AInt 7) ANone (PAtom ANone) ANone [] [] [].
Proof.
  split.
  - apply (annotation_needs_map_and_namespace (demo_conn [] [])
             (Importer.set_image_ids
                (new_importer "/data/a.tif" ANone ANone ANone
                   (PDict [(AStr "stain", Scalar (AStr "DAPI"))]) ANone [] [])
                (Some [101]))
             "/data/a.tif" ANone ANone ANone (PAtom ANone) ANone [] [] []).
    right. reflexivity.
  - apply (annotation_needs_map_and_namespace
             (demo_conn [mkDoc (Some [101]) (Some [])] [101])
             (new_importer "/data/a.tif" ANone ANone ANone (PAtom ANone)
                ANone [] [])
             "/data/a.tif" ANone (AInt 7) ANone (PDict []) (AStr "ns1")
             [] [] []).
    left. reflexivity.
Defined.

(** ** Zero as a reference *)

Lemma organize_images_unset_links_nothing conn self x l t :
  Importer.image_ids self = Some (x :: l) ->
  truthy (Importer.dataset self) = false \/
  (exists name, Importer.dataset self = AStr name) /\
  (forall t', new_id conn t' = 0) ->
  filter is_link (added (Importer.organize_images conn self) t) = [].
Proof.
  intros Hids Hzero.
  destruct (organize_images_nonempty conn self x l t Hids)
    as (dataset_id & r & Hrun & Hquiet & Hnone & Hint & Hstr).
  rewrite (filter_added_organize_images is_link _ _ _ _ _ _ _ Hrun).
  rewrite (quiet_no_link r Hquiet). cbn [filter is_link app].
  apply filter_link_image_events_unset.
  destruct Hzero as [Hd | ((name & Hname) & Hzero)].
  - now rewrite Hnone.
  - destruct (String.eqb_spec name "") as [->|Hne].
    + rewrite Hnone; [reflexivity | now rewrite Hname].
    + destruct (Hstr name Hname Hne) as (parent & t' & -> & _).
      now rewrite Hzero.
Qed.

(** C10.  A reference is taken as supplied when it passes [if ref:], so
    the identifier 0 counts as absent.  A dataset 0 given with a project
    raises the value error of a project without dataset.  With the
    dataset 0, or with a dataset created by name to which the server
    gives the identifier 0, no image is linked, orphan or not.  With the
    parent project 0, a Dataset created by name carries no parent. *)
Theorem zero_counts_as_absent (conn : BlitzGateway) (self : Importer.t)
    (target : string) (project screen : atom) (ann : pyval) (ns : atom)
    (args : list string) (kwargs : list (string * string))
    (x : Z) (l : list Z) (name : string) (t : trace) :
  (truthy project = true ->
   Importer.init conn target project (AInt 0) screen ann ns args kwargs t
     = (Raised (ValueError "Cannot define project but no dataset!"),
        t ++ [EGetSession])) /\
  (Importer.image_ids self = Some (x :: l) ->
   Importer.dataset self = AInt 0 ->
   filter is_link (added (Importer.organize_images conn self) t) = []) /\
  (Importer.image_ids self = Some (x :: l) ->
   Importer.dataset self = AStr name ->
   (forall t', new_id conn t' = 0) ->
   filter is_link (added (Importer.organize_images conn self) t) = []) /\
  set_or_create_dataset conn (Some 0) (AStr name) t
    = (OK (new_id conn t),
       t ++ [EPostDataset name None;
             EPrint ("Created new Dataset:" ++ str_of_Z (new_id conn t))]).
Proof.
  split; [|split; [|split]].
  - intros Hp. now rewrite init_spec, Hp.
  - intros Hids Hd.
    apply (organize_images_unset_links_nothing conn self x l t Hids).
    left. now rewrite Hd.
  - intros Hids Hd Hzero.
    apply (organize_images_unset_links_nothing conn self x l t Hids).
    right. split; [now exists name | exact Hzero].
  - apply set_or_create_dataset_str.
Qed.

Lemma zero_counts_as_absent_witness :
  Importer.init (demo_conn [] []) "/data/a.tif" (AStr "P1") (AInt 0) ANone
    (PAtom ANone) ANone [] [] []
  = (Raised (ValueError "Cannot define project but no dataset!"),
     [EGetSession]) /\
  filter is_link
    (added
       (Importer.organize_images (demo_conn [] [101; 102])
          (Importer.set_image_ids
             (new_importer "/data/a.tif" ANone (AInt 0) ANone (PAtom ANone)
                ANone [] [])
             (Some [101; 102]))) []) = [] /\
  filter is_link
    (added
       (Importer.organize_images (zero_conn [101; 102])
          (Importer.set_image_ids
             (new_importer "/data/a.tif" ANone (AStr "Exp1") ANone
                (PAtom ANone) ANone [] [])
             (Some [101; 102]))) []) = [].
Proof.
  split; [|split].
  - apply (proj1 (zero_counts_as_absent (demo_conn [] [])
             (new_importer "/data/a.tif" ANone ANone ANone (PAtom ANone)
                ANone [] [])
             "/data/a.tif" (AStr "P1") ANone (PAtom ANone) ANone [] [] 0 []
             "Exp1" [])).
    reflexivity.
  - apply (proj1 (proj2 (zero_counts_as_absent (demo_conn [] [101; 102])
             (Importer.set_image_ids
                (new_importer "/data/a.tif" ANone (AInt 0) ANone
                   (PAtom ANone) ANone [] [])
                (Some [101; 102]))
             "/data/a.tif" ANone ANone (PAtom ANone) ANone [] [] 101 [102]
             "Exp1" []))); reflexivity.
  - apply (proj1 (proj2 (proj2 (zero_counts_as_absent (zero_conn [101; 102])
             (Importer.set_image_ids
                (new_importer "/data/a.tif" ANone (AStr "Exp1") ANone
                   (PAtom ANone) ANone [] [])
                (Some [101; 102]))
             "/data/a.tif" ANone ANone (PAtom ANone) ANone [] [] 101 [102]
             "Exp1" [])))); reflexivity.
Defined.

(** ** Organizing plates *)

(** A loop whose body always returns and adds [k] events satisfying [p]
    adds [k] of them for every element. *)
Lemma for_each_count {A : Type} (body : A -> M unit) (p : event -> bool)
    (k : nat) :
  (forall x t, exists r, body x t = (OK tt, t ++ r) /\ count p r = k) ->
  forall l t,
    exists r, for_each l body t = (OK tt, t ++ r) /\
              count p r = (List.length l * k)%nat.
Proof.
  intros Hbody. induction l as [|x l IH]; intros t; cbn [for_each].
  - exists []. now rewrite app_nil_r.
  - destruct (Hbody x t) as (r1 & H1 & Hk1).
    destruct (IH (t ++ r1)) as (r2 & H2 & Hk2).
    exists (r1 ++ r2). rewrite (bind_OK _ _ _ _ _ H1), H2, app_assoc.
    split; [reflexivity|].
    rewrite count_app, Hk1, Hk2. cbn [List.length]. lia.
Qed.

Lemma move_plate_named conn self name pl_id t :
  Importer.screen self = AStr name -> name <> ""%string ->
  Importer.move_plate conn self pl_id t =
  (OK tt,
   t ++ [EPostScreen name;
         EPrint ("Created new screen:" ++ str_of_Z (new_id conn t));
         ELinkPlates [pl_id] (new_id conn t);
         EPrint ("Moved Plate:" ++ str_of_Z pl_id ++ " to Screen:"
                 ++ str_of_Z (new_id conn t))]).
Proof.
  intros Hscreen Hne. unfold Importer.move_plate. rewrite Hscreen.
  cbn [truthy]. apply String.eqb_neq in Hne. rewrite Hne. cbn [negb].
  rewrite (bind_OK _ _ _ _ _ (set_or_create_screen_str conn name t)).
  cbv [link_plates_to_screen print emit bind].
  now rewrite <- !app_assoc.
Qed.

(** [organize_plates] resolves the screen inside its loop: given a screen
    by name and n plates, it creates n screens. *)
Lemma organize_plates_creates_per_plate conn self x l name t :
  Importer.plate_ids self = Some (x :: l) ->
  Importer.screen self = AStr name -> name <> ""%string ->
  fst (Importer.organize_plates conn self t) = OK true /\
  count is_post_screen (added (Importer.organize_plates conn self) t)
  = List.length (x :: l).
Proof.
  intros Hids Hscreen Hne.
  destruct (for_each_count (Importer.move_plate conn self) is_post_screen 1)
    with (l := x :: l) (t := t) as (r & Hloop & Hcount).
  { intros pl_id t0. eexists. split.
    - apply (move_plate_named conn self name pl_id t0 Hscreen Hne).
    - reflexivity. }
  assert (Hrun : Importer.organize_plates conn self t = (OK true, t ++ r)).
  { unfold Importer.organize_plates. rewrite Hids.
    cbn [List.length Nat.eqb].
    now rewrite (bind_OK _ _ _ _ _ Hloop). }
  rewrite Hrun, (added_app _ _ _ _ Hrun), Hcount.
  split; [reflexivity | lia].
Qed.

(** C2 fails on plates.  A run that imports the plates 55 and 56 into a
    screen given by the name S calls the server to create a screen twice,
    once for each plate, and links each plate to the screen created for
    it: the two plates end in two different screens named S. *)
Theorem screen_created_for_every_plate :
  let tr :=
    snd (ezimport (demo_conn [mkDoc (Some []) (Some [55; 56])] [])
           "/data/plates.tif" ANone ANone (AStr "S") (PAtom ANone) ANone
           [] [] []) in
  count is_post_screen tr = 2%nat /\
  filter (fun e => is_creation e || is_link e) tr
  = [EPostScreen "S"; ELinkPlates [55] 1004;
     EPostScreen "S"; ELinkPlates [56] 1008].
Proof. split; reflexivity. Qed.

(** ** The choice of the pipeline *)

Lemma plate_pipeline_returns conn self t ids imp t' :
  plate_pipeline conn self t = (OK (ids, imp), t') ->
  exists d docs pl,
    Importer.import_result self = d :: docs /\
    Plate d = Some pl /\
    ids = Some pl /\
    imp = Importer.set_plate_ids self (Some pl).
Proof.
  unfold plate_pipeline, Importer.get_plate_ids, Importer.first_document.
  destruct (Importer.import_result self) as [|d docs];
    cbv beta iota zeta delta [bind ret raise fst snd]; [discriminate|].
  destruct (Plate d) as [pl|] eqn:Hpl; [|discriminate].
  destruct (Importer.organize_plates _ _ _) as [[b|e] t1]; [|discriminate].
  destruct (Importer.annotate_plates _ _ _) as [[o|e] t2]; [|discriminate].
  intros [= <- <- <-]. now exists d, docs, pl.
Qed.

Lemma image_pipeline_returns conn self t ids imp t' :
  image_pipeline conn self t = (OK (ids, imp), t') ->
  exists d docs im,
    Importer.import_result self = d :: docs /\
    Image d = Some im /\
    ids = Some im /\
    imp = Importer.set_image_ids self (Some im).
Proof.
  unfold image_pipeline, Importer.get_my_image_ids, Importer.first_document.
  destruct (Importer.import_result self) as [|d docs];
    cbv beta iota zeta delta [bind ret raise fst snd]; [discriminate|].
  destruct (Image d) as [im|] eqn:Him; [|discriminate].
  destruct (Importer.organize_images _ _ _) as [[b|e] t1]; [|discriminate].
  destruct (Importer.annotate_images _ _ _) as [[o|e] t2]; [|discriminate].
  intros [= <- <- <-]. now exists d, docs, im.
Qed.

(** C1, as the code has it.  In a run that is constructed and whose
    submission yields at least one document, the pipeline is chosen by
    the screen reference and by nothing in the document: the plate
    pipeline runs when the reference is a non-empty name or a non-zero
    identifier, the image pipeline otherwise.  Exactly one of the two
    runs: a run that returns leaves either the plate identifiers set, to
    those of the document, and the image identifiers untouched, or the
    other way round, and returns the identifiers it set. *)
Theorem pipeline_chosen_by_screen (conn : BlitzGateway) (target : string)
    (project dataset screen : atom) (ann : pyval) (ns : atom)
    (args : list string) (kwargs : list (string * string)) (t : trace)
    (d : doc) (docs : list doc) :
  truthy project && negb (truthy dataset) = false ->
  submitted conn
    (run_importer conn target project dataset screen ann ns args kwargs)
    (t ++ [EGetSession])
    = d :: docs ->
  let imp0 :=
    run_importer conn target project dataset screen ann ns args kwargs in
  let imp_ctl := after_import imp0 (d :: docs) in
  let t1 := imported_trace conn imp0 t in
  ezimport_ctl conn target project dataset screen ann ns args kwargs t
    = (if truthy screen
       then plate_pipeline conn imp_ctl
       else image_pipeline conn imp_ctl) t1 /\
  (forall ids imp t',
     ezimport_ctl conn target project dataset screen ann ns args kwargs t
       = (OK (ids, imp), t') ->
     (truthy screen = true /\ ids = Plate d /\
      Importer.plate_ids imp = Plate d /\ Importer.image_ids imp = None) \/
     (truthy screen = false /\ ids = Image d /\
      Importer.image_ids imp = Image d /\ Importer.plate_ids imp = None)).
Proof.
  intros Hinit Hdocs imp0 imp_ctl t1.
  assert (Hrun :
    ezimport_ctl conn target project dataset screen ann ns args kwargs t
    = (if truthy screen
       then plate_pipeline conn imp_ctl
       else image_pipeline conn imp_ctl) t1).
  { rewrite ezimport_ctl_spec, Hinit. cbv zeta. rewrite Hdocs.
    reflexivity. }
  split; [exact Hrun|].
  intros ids imp t'. rewrite Hrun.
  destruct (truthy screen); intros Hpipe; [left | right].
  - apply plate_pipeline_returns in Hpipe
      as (d' & docs' & pl & [= <- <-] & Hpl & -> & ->).
    now rewrite Hpl.
  - apply image_pipeline_returns in Hpipe
      as (d' & docs' & im & [= <- <-] & Him & -> & ->).
    now rewrite Him.
Qed.

Lemma pipeline_chosen_by_screen_witness :
  ezimport_ctl (demo_conn [mkDoc (Some []) (Some [55])] [])
    "/data/plates.tif" ANone ANone (AInt 9) (PAtom ANone) ANone [] [] []
  = plate_pipeline (demo_conn [mkDoc (Some []) (Some [55])] [])
      (after_import
         (new_importer "/data/plates.tif" ANone ANone (AInt 9) (PAtom ANone)
            ANone [] [])
         [mkDoc (Some []) (Some [55])])
      [EGetSession; EGetSession;
       EImport ["import"; "-k"; "uuid"; "-s"; "localhost"; "-p"; "4064";
                "--file"; "/tmp/out"; "--output"; "yaml";
                "/data/plates.tif"]%string;
       EPrint "Imported /data/plates.tif"].
Proof.
  apply (proj1 (pipeline_chosen_by_screen
                  (demo_conn [mkDoc (Some []) (Some [55])] [])
                  "/data/plates.tif" ANone ANone (AInt 9) (PAtom ANone) ANone
                  [] [] [] (mkDoc (Some []) (Some [55])) []
                  eq_refl eq_refl)).
Defined.

(** C1 as stated fails: the document holds the plate 55 and no image,
    no screen is given, and the image pipeline runs: the run returns the
    empty list of images and never reads the plate identifiers. *)
Lemma plates_imported_without_screen :
  let conn := demo_conn [mkDoc (Some []) (Some [55])] [] in
  submitted conn
    (new_importer "/data/plates.tif" ANone ANone ANone (PAtom ANone) ANone
       [] []) [EGetSession]
  = [mkDoc (Some []) (Some [55])] /\
  match fst (ezimport_ctl conn "/data/plates.tif" ANone ANone ANone
               (PAtom ANone) ANone [] [] []) with
  | OK (ids, imp) =>
      ids = Some [] /\
      Importer.image_ids imp = Some [] /\
      Importer.plate_ids imp = None
  | Raised _ => False
  end.
Proof. cbn. repeat split. Qed.

(** * Coverage beyond the claims *)

(** ** [make_substitutions] *)

Ltac each_char c :=
  destruct c as [[] [] [] [] [] [] [] []]; vm_compute; reflexivity.

Lemma substituted_char_clean (c : ascii) :
  existsb
    (Ascii.eqb
       (Importer.translate_char
          (Importer.maketrans (String "034" "*:<>?\|") "'x;[]%/!") c))
    replaced_chars = false.
Proof. each_char c. Qed.

Lemma substituted_char_fixed (c : ascii) :
  Ascii.eqb
    (Importer.translate_char
       (Importer.maketrans (String "034" "*:<>?\|") "'x;[]%/!") c) c
  = negb (existsb (Ascii.eqb c) replaced_chars).
Proof. each_char c. Qed.

Lemma substituted_char_twice (c : ascii) :
  let table := Importer.maketrans (String "034" "*:<>?\|") "'x;[]%/!" in
  Importer.translate_char table (Importer.translate_char table c)
  = Importer.translate_char table c.
Proof. each_char c. Qed.

Lemma existsb_eqb_In (c : ascii) (l : list ascii) :
  existsb (Ascii.eqb c) l = true <-> In c l.
Proof.
  rewrite existsb_exists. split.
  - intros (x & Hin & Heq). apply Ascii.eqb_eq in Heq. now subst.
  - intros Hin. exists c. split; [exact Hin | apply Ascii.eqb_refl].
Qed.

Lemma translate_chars (s : string) (table : list (ascii * ascii)) :
  list_ascii_of_string (Importer.translate s table)
  = map (Importer.translate_char table) (list_ascii_of_string s).
Proof. induction s as [|c s IH]; cbn; [reflexivity | now rewrite IH]. Qed.

(** X1.  The path [make_substitutions] returns holds none of the eight
    characters it replaces. *)
Theorem make_substitutions_clean (self : Importer.t) (c : ascii) :
  In c (list_ascii_of_string (Importer.make_substitutions self)) ->
  ~ In c replaced_chars.
Proof.
  unfold Importer.make_substitutions. cbv zeta. rewrite translate_chars.
  intros Hin Hbad. apply in_map_iff in Hin as (c0 & <- & _).
  apply existsb_eqb_In in Hbad.
  rewrite substituted_char_clean in Hbad. discriminate.
Qed.

Lemma make_substitutions_clean_witness :
  ~ In "x"%char replaced_chars.
Proof.
  apply (make_substitutions_clean
           (with_file_path
              (new_importer "" ANone ANone ANone (PAtom ANone) ANone [] [])
              "a*b")).
  cbn. tauto.
Defined.

Lemma translate_length (s : string) (table : list (ascii * ascii)) :
  String.length (Importer.translate s table) = String.length s.
Proof. induction s as [|c s IH]; cbn; [reflexivity | now rewrite IH]. Qed.

Lemma translate_fixed (s : string) :
  Importer.translate s
    (Importer.maketrans (String "034" "*:<>?\|") "'x;[]%/!") = s <->
  (forall c, In c (list_ascii_of_string s) -> ~ In c replaced_chars).
Proof.
  induction s as [|c s IH]; cbn [Importer.translate list_ascii_of_string].
  - split; [intros _ c [] | reflexivity].
  - split.
    + intros [= Hc Hs] c' [<- | Hin] Hbad.
      * apply Ascii.eqb_eq in Hc. rewrite substituted_char_fixed in Hc.
        apply existsb_eqb_In in Hbad. rewrite Hbad in Hc. discriminate.
      * now apply (proj1 IH Hs c').
    + intros Hclean. f_equal.
      * apply Ascii.eqb_eq. rewrite substituted_char_fixed.
        destruct (existsb (Ascii.eqb c) replaced_chars) eqn:E; [|reflexivity].
        apply existsb_eqb_In in E. now destruct (Hclean c (or_introl eq_refl)).
      * apply IH. intros c' Hin. apply Hclean. now right.
Qed.

(** X2.  [make_substitutions] replaces character for character: the
    path it returns has the length of [file_path], and it is [file_path]
    itself exactly when [file_path] holds none of the replaced
    characters. *)
Theorem make_substitutions_fixed (self : Importer.t) :
  String.length (Importer.make_substitutions self)
    = String.length (Importer.file_path self) /\
  (Importer.make_substitutions self = Importer.file_path self <->
   forall c, In c (list_ascii_of_string (Importer.file_path self)) ->
             ~ In c replaced_chars).
Proof.
  split; [apply translate_length | apply translate_fixed].
Qed.

(** X3.  Substituting twice is substituting once: a substituted path is
    left as it is. *)
Theorem make_substitutions_idempotent (self : Importer.t) :
  Importer.make_substitutions
    (with_file_path self (Importer.make_substitutions self))
  = Importer.make_substitutions self.
Proof.
  unfold Importer.make_substitutions. cbn [with_file_path Importer.file_path].
  cbv zeta.
  induction (Importer.file_path self) as [|c s IH]; cbn [Importer.translate];
    [reflexivity|].
  now rewrite IH, (substituted_char_twice c).
Qed.

(** ** The command line and the submission *)

(** X4.  Whatever options the caller passes, the command line begins
    with the seven arguments of the connection and ends with the
    redirection of the output and the path, the options in between, each
    with two dashes in front, in the order given; so it has twelve
    arguments more than there are options and its last one is the
    path. *)
Theorem arguments_of_shape (conn : BlitzGateway) (self : Importer.t)
    (stdout_file_name : string) :
  Importer.arguments_of conn self stdout_file_name
  = ["import"; "-k"; session_uuid conn; "-s"; host conn; "-p";
     str_of_Z (port conn)]%string
    ++ map (fun v => "--" ++ v)%string (Importer.common_args self)
    ++ map (fun kv => "--" ++ fst kv ++ "=" ++ snd kv)%string
         (Importer.named_args self)
    ++ ["--file"; stdout_file_name; "--output"; "yaml";
        Importer.file_path self]%string /\
  List.length (Importer.arguments_of conn self stdout_file_name)
  = (12 + List.length (Importer.common_args self)
     + List.length (Importer.named_args self))%nat /\
  last (Importer.arguments_of conn self stdout_file_name) ""%string
  = Importer.file_path self.
Proof.
  assert (Hshape :
    Importer.arguments_of conn self stdout_file_name
    = ["import"; "-k"; session_uuid conn; "-s"; host conn; "-p";
       str_of_Z (port conn)]%string
      ++ map (fun v => "--" ++ v)%string (Importer.common_args self)
      ++ map (fun kv => "--" ++ fst kv ++ "=" ++ snd kv)%string
           (Importer.named_args self)
      ++ ["--file"; stdout_file_name; "--output"; "yaml";
          Importer.file_path self]%string).
  { unfold Importer.arguments_of.
    destruct (Importer.common_args self) as [|a args],
             (Importer.named_args self) as [|kv kwargs];
      cbn [nonempty map]; rewrite <- ?app_assoc; reflexivity. }
  split; [exact Hshape|]. rewrite Hshape. split.
  - rewrite !length_app, !length_map. cbn [List.length]. lia.
  - rewrite !app_assoc.
    change ["--file"; stdout_file_name; "--output"; "yaml";
            Importer.file_path self]%string
      with (["--file"; stdout_file_name; "--output"; "yaml"]%string
            ++ [Importer.file_path self]).
    rewrite app_assoc. apply last_last.
Qed.

(** X5.  The submission never raises.  It asks the connection for its
    session and makes one call after that, the import; it returns
    whether the output held a document, keeps the documents in
    [import_result], sets [imported] when there is one and leaves the
    references, identifiers and annotation of the object as they were. *)
Theorem submission_returns (conn : BlitzGateway) (self : Importer.t)
    (t : trace) :
  let docs := submitted conn self t in
  exists self',
    fst (Importer.ezimport conn self t) = OK (nonempty docs, self') /\
    filter is_remote (added (Importer.ezimport conn self) t)
      = [EGetSession;
         EImport (Importer.arguments_of conn self (tmp_name conn t))] /\
    Importer.import_result self' = docs /\
    Importer.imported self' = (Importer.imported self || nonempty docs) /\
    (Importer.file_path self', Importer.common_args self',
     Importer.named_args self',
     Importer.project self', Importer.dataset self', Importer.screen self',
     Importer.image_ids self', Importer.plate_ids self',
     Importer.ann self', Importer.ns self')
    = (Importer.file_path self, Importer.common_args self,
       Importer.named_args self,
       Importer.project self, Importer.dataset self, Importer.screen self,
       Importer.image_ids self, Importer.plate_ids self,
       Importer.ann self, Importer.ns self).
Proof.
  intros docs. pose proof (Importer_ezimport_spec conn self t) as H.
  cbv zeta in H. fold docs in H.
  destruct (nonempty docs) eqn:Hdocs.
  - exists (after_import self docs). rewrite <- app_assoc in H.
    rewrite H, (added_app _ _ _ _ H), orb_true_r. repeat split.
  - exists (Importer.set_import_result self docs). rewrite <- app_assoc in H.
    rewrite H, (added_app _ _ _ _ H), orb_false_r. repeat split.
Qed.

(** ** What a computation adds to the trace *)

Lemma only_ret {A : Type} (P : event -> bool) (a : A) : only P (ret a).
Proof. intros t. exists []. now rewrite app_nil_r. Qed.

Lemma only_raise {A : Type} (P : event -> bool) (e : exn) :
  only P (raise e : M A).
Proof. intros t. exists []. now rewrite app_nil_r. Qed.

Lemma only_ask {A : Type} (P : event -> bool) (f : trace -> A) :
  only P (ask f).
Proof. intros t. exists []. now rewrite app_nil_r. Qed.

Lemma only_emit (P : event -> bool) (e : event) :
  P e = true -> only P (emit e).
Proof. intros H t. exists [e]. cbn. now rewrite H. Qed.

Lemma only_call {A : Type} (P : event -> bool) (e : event) (ans : trace -> A) :
  P e = true -> only P (call e ans).
Proof. intros H t. exists [e]. cbn. now rewrite H. Qed.

Lemma only_bind {A B : Type} (P : event -> bool) (m : M A) (k : A -> M B) :
  only P m -> (forall a, only P (k a)) -> only P (bind m k).
Proof.
  intros Hm Hk t. destruct (Hm t) as (r1 & H1 & F1). unfold bind.
  destruct (m t) as [[a|e] t1]; cbn [snd] in H1; subst t1.
  - destruct (Hk a (t ++ r1)) as (r2 & H2 & F2).
    exists (r1 ++ r2). rewrite H2, app_assoc, forallb_app, F1, F2. now split.
  - now exists r1.
Qed.

Lemma only_for_each {A : Type} (P : event -> bool) (body : A -> M unit)
    (l : list A) :
  (forall x, only P (body x)) -> only P (for_each l body).
Proof.
  intros Hbody. induction l as [|x l IH]; cbn [for_each].
  - apply only_ret.
  - apply only_bind; [apply Hbody | intros _; exact IH].
Qed.

Lemma only_weaken {A : Type} (P Q : event -> bool) (m : M A) :
  (forall e, P e = true -> Q e = true) -> only P m -> only Q m.
Proof.
  intros HPQ Hm t. destruct (Hm t) as (r & H & F). exists r.
  split; [exact H|]. rewrite forallb_forall in *. auto.
Qed.

Lemma only_added {A : Type} (P : event -> bool) (m : M A) (t : trace)
    (e : event) :
  only P m -> In e (added m t) -> P e = true.
Proof.
  intros Hm Hin. destruct (Hm t) as (r & H & F).
  unfold added in Hin. rewrite H, skipn_app, skipn_all, Nat.sub_diag in Hin.
  cbn in Hin. rewrite forallb_forall in F. auto.
Qed.

(** One step of a proof that a computation adds only events of a kind:
    follow the structure of the computation. *)
Ltac only_step :=
  first
    [ apply only_ret
    | apply only_raise
    | apply only_ask
    | apply only_emit; reflexivity
    | apply only_call; reflexivity
    | apply only_for_each; intros ?
    | apply only_bind; [|intros ?]
    | match goal with
      | |- only _ (if ?b then _ else _) => destruct b
      | |- only _ (match ?x with _ => _ end) => destruct x
      end ].

Ltac only_steps := repeat only_step.

Lemma only_multi_post_plates conn object_ids kv_dict ns :
  only plate_side
    (multi_post_map_annotation conn "Plate" object_ids kv_dict ns).
Proof.
  unfold multi_post_map_annotation, map_ann_save, getObjects, linkAnnotation.
  only_steps.
Qed.

Lemma only_multi_post_images conn object_ids kv_dict ns :
  only image_side
    (multi_post_map_annotation conn "Image" object_ids kv_dict ns).
Proof.
  unfold multi_post_map_annotation, map_ann_save, getObjects, linkAnnotation.
  only_steps.
Qed.

Lemma only_organize_plates conn self :
  only plate_side (Importer.organize_plates conn self).
Proof.
  unfold Importer.organize_plates, Importer.move_plate, set_or_create_screen,
    post_screen, link_plates_to_screen, logging_error, print.
  only_steps.
Qed.

Lemma only_organize_images conn self :
  only image_side (Importer.organize_images conn self).
Proof.
  unfold Importer.organize_images, Importer.move_image, get_image_ids,
    set_or_create_project, set_or_create_dataset, post_project, post_dataset,
    link_images_to_dataset, logging_error, print.
  only_steps.
Qed.

Lemma only_annotate_plates conn self :
  only plate_side (Importer.annotate_plates conn self).
Proof.
  unfold Importer.annotate_plates, logging_warning, logging_error.
  only_steps; apply only_multi_post_plates.
Qed.

Lemma only_annotate_images conn self :
  only image_side (Importer.annotate_images conn self).
Proof.
  unfold Importer.annotate_images, logging_warning, logging_error.
  only_steps; apply only_multi_post_images.
Qed.

Lemma only_plate_pipeline conn self :
  only plate_side (plate_pipeline conn self).
Proof.
  unfold plate_pipeline, Importer.get_plate_ids, Importer.first_document.
  only_steps;
    first [apply only_organize_plates | apply only_annotate_plates].
Qed.

Lemma only_image_pipeline conn self :
  only image_side (image_pipeline conn self).
Proof.
  unfold image_pipeline, Importer.get_my_image_ids, Importer.first_document.
  only_steps;
    first [apply only_organize_images | apply only_annotate_images].
Qed.

(** ** The whole run *)

(** What a run adds to the trace: the session asked for by the
    constructor; then, unless the constructor raises, the session again
    and the import, followed by an error message when no document came
    back and by a message and the events of the chosen pipeline when one
    did. *)
Lemma run_added conn target project dataset screen ann ns args kwargs t :
  let imp0 :=
    run_importer conn target project dataset screen ann ns args kwargs in
  let docs := submitted conn imp0 (t ++ [EGetSession]) in
  let submit :=
    EImport (Importer.arguments_of conn imp0
               (tmp_name conn (t ++ [EGetSession]))) in
  added (ezimport conn target project dataset screen ann ns args kwargs) t
  = if truthy project && negb (truthy dataset) then [EGetSession]
    else if nonempty docs
         then EGetSession :: EGetSession :: submit
              :: EPrint ("Imported " ++ abspath conn target)
              :: added (if truthy screen
                        then plate_pipeline conn (after_import imp0 docs)
                        else image_pipeline conn (after_import imp0 docs))
                   (imported_trace conn imp0 t)
         else [EGetSession; EGetSession; submit;
               ELog Error ("Import of " ++ abspath conn target
                           ++ " has failed!")].
Proof.
  intros imp0 docs submit.
  unfold added at 1. rewrite ezimport_seen. unfold seen. cbn [snd].
  rewrite ezimport_ctl_spec. cbv zeta. fold imp0. fold docs. fold submit.
  destruct (truthy project && negb (truthy dataset)).
  { cbn [snd]. now rewrite skipn_app, skipn_all, Nat.sub_diag. }
  destruct (nonempty docs).
  - set (pipeline := if truthy screen then _ else _).
    assert (Hp : only (fun _ => true) pipeline).
    { unfold pipeline. destruct (truthy screen).
      - apply (only_weaken plate_side); [reflexivity|].
        apply only_plate_pipeline.
      - apply (only_weaken image_side); [reflexivity|].
        apply only_image_pipeline. }
    destruct (Hp (imported_trace conn imp0 t)) as (r & Hr & _).
    unfold added. rewrite Hr.
    rewrite (skipn_app (List.length (imported_trace conn imp0 t))),
      skipn_all, Nat.sub_diag.
    cbn [skipn app]. unfold imported_trace. rewrite <- app_assoc.
    rewrite skipn_app, skipn_all, Nat.sub_diag. reflexivity.
  - cbn [snd].
    rewrite skipn_app, skipn_all, Nat.sub_diag. reflexivity.
Qed.

Lemma forallb_added {A : Type} (P : event -> bool) (m : M A) (t : trace) :
  only P m -> forallb P (added m t) = true.
Proof.
  intros Hm. apply forallb_forall. intros e. now apply only_added.
Qed.

Lemma count_none (p P : event -> bool) (r : list event) :
  (forall e, P e = true -> p e = false) ->
  forallb P r = true -> count p r = 0%nat.
Proof.
  intros HP. unfold count. induction r as [|e r IH]; cbn; [reflexivity|].
  intros H. apply andb_true_iff in H as [He Hr].
  now rewrite (HP e He), IH.
Qed.

(** *** The check of the constructor, in a run *)

(** C6, as the code has it.  A run given a project reference that is a
    non-empty name or a non-zero identifier, and a dataset reference that
    is absent, the empty name or zero, raises the value error in the
    constructor.  The constructor has by then asked the connection for
    its session, its one call; nothing has been submitted and nothing
    else called.  A project reference that is absent, zero or the empty
    name is accepted without a dataset: the constructor returns the
    object, and the run goes on to submit the import. *)
Theorem project_without_dataset_rejected (conn : BlitzGateway)
    (target : string) (project dataset screen : atom) (ann : pyval)
    (ns : atom) (args : list string) (kwargs : list (string * string))
    (t : trace) :
  (truthy project = true ->
   truthy dataset = false ->
   Importer.init conn target project dataset screen ann ns args kwargs t
     = (Raised (ValueError "Cannot define project but no dataset!"),
        t ++ [EGetSession]) /\
   ezimport conn target project dataset screen ann ns args kwargs t
     = (Raised (ValueError "Cannot define project but no dataset!"),
        t ++ [EGetSession]) /\
   added (ezimport conn target project dataset screen ann ns args kwargs) t
     = [EGetSession]) /\
  (truthy project = false ->
   Importer.init conn target project dataset screen ann ns args kwargs t
     = (OK (run_importer conn target project dataset screen ann ns args
              kwargs),
        t ++ [EGetSession]) /\
   count is_import
     (added (ezimport conn target project dataset screen ann ns args kwargs)
        t) = 1%nat).
Proof.
  split.
  - intros Hp Hd.
    assert (Hinit :
      Importer.init conn target project dataset screen ann ns args kwargs t
      = (Raised (ValueError "Cannot define project but no dataset!"),
         t ++ [EGetSession])).
    { rewrite init_spec, Hp, Hd. reflexivity. }
    assert (Hrun :
      ezimport conn target project dataset screen ann ns args kwargs t
      = (Raised (ValueError "Cannot define project but no dataset!"),
         t ++ [EGetSession])).
    { unfold ezimport, ezimport_ctl.
      erewrite bind_Raised; [reflexivity|].
      erewrite bind_Raised; [reflexivity|]. exact Hinit. }
    split; [exact Hinit|]. split; [exact Hrun|].
    exact (added_app _ _ _ _ Hrun).
  - intros Hp. split.
    + rewrite init_spec, Hp. reflexivity.
    + rewrite run_added. cbv zeta. rewrite Hp. cbn [andb].
      destruct (nonempty _); [|reflexivity].
      unfold count. cbn [filter is_import List.length]. f_equal.
      destruct (truthy screen).
      * apply (count_none is_import plate_side).
        -- now intros [].
        -- apply forallb_added, only_plate_pipeline.
      * apply (count_none is_import image_side).
        -- now intros [].
        -- apply forallb_added, only_image_pipeline.
Qed.

Lemma project_without_dataset_rejected_witness :
  ezimport (demo_conn [mkDoc (Some [101]) (Some [])] [101]) "/data/a.tif"
    (AStr "P1") ANone ANone (PAtom ANone) ANone [] [] []
  = (Raised (ValueError "Cannot define project but no dataset!"),
     [EGetSession]) /\
  count is_import
    (added
       (ezimport (demo_conn [mkDoc (Some [101]) (Some [])] [101])
          "/data/a.tif" (AStr "") ANone ANone (PAtom ANone) ANone [] []) [])
  = 1%nat.
Proof.
  split.
  - apply (proj1 (project_without_dataset_rejected
                    (demo_conn [mkDoc (Some [101]) (Some [])] [101])
                    "/data/a.tif" (AStr "P1") ANone ANone (PAtom ANone) ANone
                    [] [] []));
      reflexivity.
  - apply (proj2 (project_without_dataset_rejected
                    (demo_conn [mkDoc (Some [101]) (Some [])] [101])
                    "/data/a.tif" (AStr "") ANone ANone (PAtom ANone) ANone
                    [] [] []));
      reflexivity.
Defined.

(** C6 as stated fails: the project 0 supplied without a dataset is
    accepted, and the run goes on to submit. *)
Lemma project_zero_without_dataset_accepted :
  ezimport (demo_conn [mkDoc (Some [101]) (Some [])] [101]) "/data/a.tif"
    (AInt 0) ANone ANone (PAtom ANone) ANone [] [] []
  = (OK (Some [101]),
     [EGetSession; EGetSession;
      EImport ["import"; "-k"; "uuid"; "-s"; "localhost"; "-p"; "4064";
               "--file"; "/tmp/out"; "--output"; "yaml"; "/data/a.tif"]%string;
      EPrint "Imported /data/a.tif";
      EGetImageIds;
      ELog Warning "Missing annotation or namespace, skipping annotations"]).
Proof. reflexivity. Qed.

(** *** Census of a run *)

(** X6.  A run submits the import once if the constructor accepts its
    arguments, whatever happens afterwards, and not at all if it does
    not. *)
Theorem run_submits_once (conn : BlitzGateway) (target : string)
    (project dataset screen : atom) (ann : pyval) (ns : atom)
    (args : list string) (kwargs : list (string * string)) (t : trace) :
  count is_import
    (added (ezimport conn target project dataset screen ann ns args kwargs) t)
  = if truthy project && negb (truthy dataset) then 0%nat else 1%nat.
Proof.
  rewrite run_added. cbv zeta.
  destruct (truthy project && negb (truthy dataset)); [reflexivity|].
  destruct (nonempty _); [|reflexivity].
  unfold count. cbn [filter is_import List.length]. f_equal.
  destruct (truthy screen).
  - apply (count_none is_import plate_side).
    + now intros [].
    + apply forallb_added, only_plate_pipeline.
  - apply (count_none is_import image_side).
    + now intros [].
    + apply forallb_added, only_image_pipeline.
Qed.

(** X7.  A run keeps to one side.  With a screen reference that passes
    [if screen:], everything it does besides asking for the session and
    importing is on the plate side: it never queries the orphans,
    creates a project or a dataset, links an image or annotates an
    image.  Otherwise everything is on the image side: it never creates
    a screen, links a plate or annotates a plate. *)
Theorem run_keeps_to_one_side (conn : BlitzGateway) (target : string)
    (project dataset screen : atom) (ann : pyval) (ns : atom)
    (args : list string) (kwargs : list (string * string)) (t : trace) :
  forallb
    (fun e => is_session e || is_import e
              || (if truthy screen then plate_side e else image_side e))
    (added (ezimport conn target project dataset screen ann ns args kwargs) t)
  = true.
Proof.
  rewrite run_added. cbv zeta.
  destruct (truthy project && negb (truthy dataset)); [reflexivity|].
  destruct (nonempty _).
  2:{ now destruct (truthy screen). }
  cbn [forallb is_session is_import orb].
  destruct (truthy screen); cbn [plate_side image_side andb].
  - apply forallb_added.
    apply (only_weaken plate_side); [|apply only_plate_pipeline].
    intros e ->. apply orb_true_r.
  - apply forallb_added.
    apply (only_weaken image_side); [|apply only_image_pipeline].
    intros e ->. apply orb_true_r.
Qed.

(** ** Plates *)

Lemma flat_map_nil {A B : Type} (l : list A) :
  flat_map (fun _ : A => @nil B) l = [].
Proof. induction l as [|x l IH]; [reflexivity | exact IH]. Qed.

Lemma move_plate_no_screen conn self pl_id t :
  truthy (Importer.screen self) = false ->
  Importer.move_plate conn self pl_id t = (OK tt, t ++ []).
Proof.
  intros H. unfold Importer.move_plate. rewrite H. unfold ret.
  now rewrite app_nil_r.
Qed.

Lemma move_plate_int conn self n pl_id t :
  Importer.screen self = AInt n -> n <> 0 ->
  Importer.move_plate conn self pl_id t = (OK tt, t ++ plate_events n pl_id).
Proof.
  intros Hscreen Hne. unfold Importer.move_plate. rewrite Hscreen.
  cbn [truthy]. apply Z.eqb_neq in Hne. rewrite Hne. cbn [negb].
  cbv [set_or_create_screen link_plates_to_screen print emit bind ret
       plate_events].
  now rewrite <- app_assoc.
Qed.

Lemma organize_plates_loop conn self x l t r b :
  Importer.plate_ids self = Some (x :: l) ->
  for_each (x :: l) (Importer.move_plate conn self) t = (OK b, t ++ r) ->
  Importer.organize_plates conn self t = (OK true, t ++ r).
Proof.
  intros Hids Hloop. unfold Importer.organize_plates. rewrite Hids.
  cbn [List.length Nat.eqb]. now rewrite (bind_OK _ _ _ _ _ Hloop).
Qed.

(** [organize_plates] never raises and returns whether there is a plate:
    the screen reference it resolves has passed [if self.screen:]. *)
Lemma organize_plates_returns conn self t :
  fst (Importer.organize_plates conn self t)
  = OK (truthy_ids (Importer.plate_ids self)).
Proof.
  destruct (Importer.plate_ids self) as [[|x l]|] eqn:Hids;
    try (unfold Importer.organize_plates; now rewrite Hids).
  cbn [truthy_ids nonempty].
  destruct (truthy (Importer.screen self)) eqn:Hscreen.
  - destruct (truthy_inv _ Hscreen) as [(name & Hn & Hne) | (n & Hn & Hne)].
    + apply (organize_plates_creates_per_plate conn self x l name t
               Hids Hn Hne).
    + erewrite organize_plates_loop; [reflexivity | exact Hids |].
      apply (for_each_emits _ (plate_events n)).
      intros pl t0. now apply move_plate_int.
  - erewrite organize_plates_loop; [reflexivity | exact Hids |].
    apply (for_each_emits _ (fun _ => [])).
    intros pl t0. now apply move_plate_no_screen.
Qed.

Lemma only_not_error_organize_plates conn self :
  only (fun e => negb (is_error_log e)) (Importer.organize_plates conn self).
Proof.
  unfold Importer.organize_plates.
  destruct (Importer.plate_ids self) as [[|x l]|]; try apply only_ret.
  cbn [List.length Nat.eqb].
  unfold Importer.move_plate, set_or_create_screen,
    post_screen, link_plates_to_screen, print.
  only_steps.
Qed.

(** X8.  [organize_plates] never raises and returns whether there is at
    least one plate identifier.  It never logs an error: with no plate,
    and also with plates but no screen reference that passes
    [if self.screen:], it leaves the trace exactly as it was. *)
Theorem organize_plates_result (conn : BlitzGateway) (self : Importer.t)
    (t : trace) :
  fst (Importer.organize_plates conn self t)
    = OK (truthy_ids (Importer.plate_ids self)) /\
  forallb (fun e => negb (is_error_log e))
    (added (Importer.organize_plates conn self) t) = true /\
  (truthy_ids (Importer.plate_ids self) = false \/
   truthy (Importer.screen self) = false ->
   snd (Importer.organize_plates conn self t) = t).
Proof.
  split; [apply organize_plates_returns|].
  split; [apply forallb_added, only_not_error_organize_plates|].
  destruct (Importer.plate_ids self) as [[|x l]|] eqn:Hids;
    try (intros _; unfold Importer.organize_plates; now rewrite Hids).
  intros [H|H]; [discriminate|].
  erewrite organize_plates_loop; [| exact Hids |].
  2:{ apply (for_each_emits _ (fun _ => [])).
      intros pl t0. now apply move_plate_no_screen. }
  cbn [snd]. now rewrite flat_map_nil, app_nil_r.
Qed.

Lemma organize_plates_result_witness :
  snd (Importer.organize_plates (demo_conn [] [])
         (Importer.set_plate_ids
            (new_importer "/data/p.tif" ANone ANone ANone (PAtom ANone)
               ANone [] [])
            (Some [55; 56])) [EGetImageIds])
  = [EGetImageIds].
Proof.
  apply (organize_plates_result (demo_conn [] [])
           (Importer.set_plate_ids
              (new_importer "/data/p.tif" ANone ANone ANone (PAtom ANone)
                 ANone [] [])
              (Some [55; 56])) [EGetImageIds]).
  right. reflexivity.
Defined.

(** X9.  Given plates and a screen by a non-zero identifier,
    [organize_plates] links every plate to that screen, one call for
    each plate in the order of the list, and creates nothing. *)
Theorem organize_plates_links_to_screen (conn : BlitzGateway)
    (self : Importer.t) (x : Z) (l : list Z) (n : Z) (t : trace) :
  Importer.plate_ids self = Some (x :: l) ->
  Importer.screen self = AInt n ->
  n <> 0 ->
  Importer.organize_plates conn self t
    = (OK true, t ++ flat_map (plate_events n) (x :: l)) /\
  filter is_remote (added (Importer.organize_plates conn self) t)
    = map (fun pl_id => ELinkPlates [pl_id] n) (x :: l).
Proof.
  intros Hids Hscreen Hne.
  assert (Hrun : Importer.organize_plates conn self t
                 = (OK true, t ++ flat_map (plate_events n) (x :: l))).
  { apply (organize_plates_loop conn self x l t _ tt Hids).
    apply (for_each_emits _ (plate_events n)).
    intros pl t0. now apply move_plate_int. }
  split; [exact Hrun|]. rewrite (added_app _ _ _ _ Hrun).
  clear. induction (x :: l) as [|pl ids IH]; [reflexivity|].
  cbn [flat_map plate_events app filter is_remote map]. now rewrite IH.
Qed.

Lemma organize_plates_links_to_screen_witness :
  filter is_remote
    (added
       (Importer.organize_plates (demo_conn [] [])
          (Importer.set_plate_ids
             (new_importer "/data/p.tif" ANone ANone (AInt 9) (PAtom ANone)
                ANone [] [])
             (Some [55; 56]))) [])
  = [ELinkPlates [55] 9; ELinkPlates [56] 9].
Proof.
  apply (organize_plates_links_to_screen (demo_conn [] [])
           (Importer.set_plate_ids
              (new_importer "/data/p.tif" ANone ANone (AInt 9) (PAtom ANone)
                 ANone [] [])
              (Some [55; 56])) 55 [56] 9 []);
    [reflexivity | reflexivity | discriminate].
Defined.

(** ** The annotation steps *)

Lemma annotate_images_dict conn self d x l t :
  skipped (Importer.ann self) (Importer.ns self) = false ->
  Importer.ann self = PDict d ->
  Importer.image_ids self = Some (x :: l) ->
  Importer.annotate_images conn self t
  = (OK (Some (new_id conn t)),
     t ++ ESaveMapAnn (py_str (Importer.ns self)) (flatten_kv d)
          :: map (fun o => ELinkAnn "Image" o (new_id conn t)) (x :: l)).
Proof.
  intros Hskip Hann Hids. unfold Importer.annotate_images.
  change (negb (truthy_val (Importer.ann self))
          || negb (truthy (Importer.ns self)))
    with (skipped (Importer.ann self) (Importer.ns self)).
  rewrite Hskip, Hids, Hann. cbn [List.length Nat.eqb].
  now rewrite (bind_OK _ _ _ _ _
                 (multi_post_map_annotation_list conn "Image" x l d _ t)).
Qed.

Lemma annotate_plates_dict conn self d x l t :
  skipped (Importer.ann self) (Importer.ns self) = false ->
  Importer.ann self = PDict d ->
  Importer.plate_ids self = Some (x :: l) ->
  Importer.annotate_plates conn self t
  = (OK (Some (new_id conn t)),
     t ++ ESaveMapAnn (py_str (Importer.ns self)) (flatten_kv d)
          :: map (fun o => ELinkAnn "Plate" o (new_id conn t)) (x :: l)).
Proof.
  intros Hskip Hann Hids. unfold Importer.annotate_plates.
  change (negb (truthy_val (Importer.ann self))
          || negb (truthy (Importer.ns self)))
    with (skipped (Importer.ann self) (Importer.ns self)).
  rewrite Hskip, Hids, Hann. cbn [List.length Nat.eqb].
  now rewrite (bind_OK _ _ _ _ _
                 (multi_post_map_annotation_list conn "Plate" x l d _ t)).
Qed.

Lemma annotate_images_no_ids conn self t :
  skipped (Importer.ann self) (Importer.ns self) = false ->
  truthy_ids (Importer.image_ids self) = false ->
  Importer.annotate_images conn self t = (OK None, t).
Proof.
  intros Hskip Hids. unfold Importer.annotate_images.
  change (negb (truthy_val (Importer.ann self))
          || negb (truthy (Importer.ns self)))
    with (skipped (Importer.ann self) (Importer.ns self)).
  rewrite Hskip.
  now destruct (Importer.image_ids self) as [[|x l]|].
Qed.

Lemma annotate_plates_no_ids conn self t :
  skipped (Importer.ann self) (Importer.ns self) = false ->
  truthy_ids (Importer.plate_ids self) = false ->
  Importer.annotate_plates conn self t = (OK None, t).
Proof.
  intros Hskip Hids. unfold Importer.annotate_plates.
  change (negb (truthy_val (Importer.ann self))
          || negb (truthy (Importer.ns self)))
    with (skipped (Importer.ann self) (Importer.ns self)).
  rewrite Hskip.
  now destruct (Importer.plate_ids self) as [[|x l]|].
Qed.

Lemma annotate_images_not_dict conn self x l t :
  skipped (Importer.ann self) (Importer.ns self) = false ->
  type_is_dict (Importer.ann self) = false ->
  Importer.image_ids self = Some (x :: l) ->
  Importer.annotate_images conn self t
  = (Raised (TypeError "Annotation must be of type `dict`"), t).
Proof.
  intros Hskip Hann Hids. unfold Importer.annotate_images.
  change (negb (truthy_val (Importer.ann self))
          || negb (truthy (Importer.ns self)))
    with (skipped (Importer.ann self) (Importer.ns self)).
  rewrite Hskip, Hids. cbn [List.length Nat.eqb].
  now destruct (Importer.ann self).
Qed.

Lemma only_not_error_multi_post conn object_type object_ids kv_dict ns :
  only (fun e => negb (is_error_log e))
    (multi_post_map_annotation conn object_type object_ids kv_dict ns).
Proof.
  unfold multi_post_map_annotation, map_ann_save, getObjects, linkAnnotation.
  only_steps.
Qed.

Lemma only_not_error_annotate_images conn self :
  only (fun e => negb (is_error_log e)) (Importer.annotate_images conn self).
Proof.
  unfold Importer.annotate_images, logging_warning.
  destruct (_ || _); [only_steps|].
  destruct (Importer.image_ids self) as [[|x l]|]; try apply only_ret.
  cbn [List.length Nat.eqb].
  only_steps. apply only_not_error_multi_post.
Qed.

Lemma only_not_error_annotate_plates conn self :
  only (fun e => negb (is_error_log e)) (Importer.annotate_plates conn self).
Proof.
  unfold Importer.annotate_plates, logging_warning.
  destruct (_ || _); [only_steps|].
  destruct (Importer.plate_ids self) as [[|x l]|]; try apply only_ret.
  cbn [List.length Nat.eqb].
  only_steps. apply only_not_error_multi_post.
Qed.

(** X10.  An annotation step given a non-empty dictionary, a non-empty
    namespace and at least one identifier returns the identifier of the
    one record it persists, which holds the flattened pairs under the
    namespace as a string, and links the record to every image, or every
    plate, in the order of the list. *)
Theorem annotate_step_links_one_record (conn : BlitzGateway)
    (self : Importer.t) (d : pydict) (t : trace) :
  Importer.ann self = PDict d ->
  d <> [] ->
  truthy (Importer.ns self) = true ->
  (forall x l,
     Importer.image_ids self = Some (x :: l) ->
     Importer.annotate_images conn self t
     = (OK (Some (new_id conn t)),
        t ++ ESaveMapAnn (py_str (Importer.ns self)) (flatten_kv d)
             :: map (fun o => ELinkAnn "Image" o (new_id conn t)) (x :: l))) /\
  (forall x l,
     Importer.plate_ids self = Some (x :: l) ->
     Importer.annotate_plates conn self t
     = (OK (Some (new_id conn t)),
        t ++ ESaveMapAnn (py_str (Importer.ns self)) (flatten_kv d)
             :: map (fun o => ELinkAnn "Plate" o (new_id conn t)) (x :: l))).
Proof.
  intros Hann Hd Hns.
  assert (Hskip : skipped (Importer.ann self) (Importer.ns self) = false).
  { unfold skipped. rewrite Hann, Hns. now destruct d. }
  split; intros x l Hids.
  - now apply annotate_images_dict.
  - now apply annotate_plates_dict.
Qed.

Lemma annotate_step_links_one_record_witness :
  Importer.annotate_plates (demo_conn [] [])
    (Importer.set_plate_ids
       (new_importer "/data/p.tif" ANone ANone (AInt 9)
          (PDict [(AStr "stain", Seq [AStr "DAPI"; AStr "GFP"])])
          (AStr "ns1") [] [])
       (Some [55])) []
  = (OK (Some 1000),
     [ESaveMapAnn "ns1" [("stain", "DAPI"); ("stain", "GFP")]%string;
      ELinkAnn "Plate" 55 1000]).
Proof.
  apply (proj2 (annotate_step_links_one_record (demo_conn [] [])
                  (Importer.set_plate_ids
                     (new_importer "/data/p.tif" ANone ANone (AInt 9)
                        (PDict [(AStr "stain",
                                 Seq [AStr "DAPI"; AStr "GFP"])])
                        (AStr "ns1") [] [])
                     (Some [55]))
                  [(AStr "stain", Seq [AStr "DAPI"; AStr "GFP"])] []
                  eq_refl ltac:(discriminate) eq_refl) 55 [] eq_refl).
Defined.

(** X11.  The annotation steps never log an error.  Given an annotation
    and a namespace but no identifier, absent or empty, they return no
    identifier and leave the trace exactly as it was. *)
Theorem annotate_step_without_ids (conn : BlitzGateway) (self : Importer.t)
    (t : trace) :
  forallb (fun e => negb (is_error_log e))
    (added (Importer.annotate_images conn self) t) = true /\
  forallb (fun e => negb (is_error_log e))
    (added (Importer.annotate_plates conn self) t) = true /\
  (truthy_val (Importer.ann self) = true ->
   truthy (Importer.ns self) = true ->
   (truthy_ids (Importer.image_ids self) = false ->
    Importer.annotate_images conn self t = (OK None, t)) /\
   (truthy_ids (Importer.plate_ids self) = false ->
    Importer.annotate_plates conn self t = (OK None, t))).
Proof.
  split; [apply forallb_added, only_not_error_annotate_images|].
  split; [apply forallb_added, only_not_error_annotate_plates|].
  intros Hann Hns.
  assert (Hskip : skipped (Importer.ann self) (Importer.ns self) = false).
  { unfold skipped. now rewrite Hann, Hns. }
  split; intros Hids.
  - now apply annotate_images_no_ids.
  - now apply annotate_plates_no_ids.
Qed.

Lemma annotate_step_without_ids_witness :
  Importer.annotate_images (demo_conn [] [])
    (Importer.set_image_ids
       (new_importer "/data/a.tif" ANone ANone ANone
          (PDict [(AStr "stain", Scalar (AStr "DAPI"))]) (AStr "ns1") [] [])
       (Some [])) []
  = (OK None, []).
Proof.
  apply (annotate_step_without_ids (demo_conn [] [])
           (Importer.set_image_ids
              (new_importer "/data/a.tif" ANone ANone ANone
                 (PDict [(AStr "stain", Scalar (AStr "DAPI"))]) (AStr "ns1")
                 [] [])
              (Some [])) []); reflexivity.
Defined.

(** ** Outcomes of a run *)

Lemma organize_images_returns conn self t :
  fst (Importer.organize_images conn self t)
  = OK (truthy_ids (Importer.image_ids self)).
Proof.
  rewrite organize_images_unfold.
  destruct (Importer.image_ids self) as [[|x l]|]; try reflexivity.
  destruct (resolve_hierarchy_returns conn self (t ++ [EGetImageIds]))
    as (dataset_id & r & -> & _).
  reflexivity.
Qed.

Lemma annotate_images_returns conn self t :
  annotation_ok (Importer.ann self) (Importer.ns self) = true ->
  exists o, fst (Importer.annotate_images conn self t) = OK o.
Proof.
  unfold annotation_ok. intros Hok.
  destruct (skipped (Importer.ann self) (Importer.ns self)) eqn:Hskip.
  { rewrite (annotate_images_skipped conn self t Hskip). now eexists. }
  cbn [orb] in Hok.
  destruct (Importer.ann self) as [a|l'|l'|d] eqn:Hann; try discriminate.
  destruct (Importer.image_ids self) as [[|x l]|] eqn:Hids.
  - rewrite annotate_images_no_ids; [now eexists | now rewrite Hann |].
    now rewrite Hids.
  - rewrite (annotate_images_dict conn self d x l t); [now eexists | | |];
      congruence.
  - rewrite annotate_images_no_ids; [now eexists | now rewrite Hann |].
    now rewrite Hids.
Qed.

Lemma annotate_plates_returns conn self t :
  annotation_ok (Importer.ann self) (Importer.ns self) = true ->
  exists o, fst (Importer.annotate_plates conn self t) = OK o.
Proof.
  unfold annotation_ok. intros Hok.
  destruct (skipped (Importer.ann self) (Importer.ns self)) eqn:Hskip.
  { rewrite (annotate_plates_skipped conn self t Hskip). now eexists. }
  cbn [orb] in Hok.
  destruct (Importer.ann self) as [a|l'|l'|d] eqn:Hann; try discriminate.
  destruct (Importer.plate_ids self) as [[|x l]|] eqn:Hids.
  - rewrite annotate_plates_no_ids; [now eexists | now rewrite Hann |].
    now rewrite Hids.
  - rewrite (annotate_plates_dict conn self d x l t); [now eexists | | |];
      congruence.
  - rewrite annotate_plates_no_ids; [now eexists | now rewrite Hann |].
    now rewrite Hids.
Qed.

(** A computation whose value is known, written as the pair it is. *)
Lemma fst_OK {A : Type} (m : M A) (t : trace) (a : A) :
  fst (m t) = OK a -> m t = (OK a, snd (m t)).
Proof. destruct (m t) as [r t']. cbn. now intros ->. Qed.

Lemma plate_pipeline_ok conn self d docs pl t :
  Importer.import_result self = d :: docs ->
  Plate d = Some pl ->
  annotation_ok (Importer.ann self) (Importer.ns self) = true ->
  fst (plate_pipeline conn self t)
  = OK (Some pl, Importer.set_plate_ids self (Some pl)).
Proof.
  intros Hdocs Hpl Hok. unfold plate_pipeline.
  assert (Hget : Importer.get_plate_ids self t
                 = (OK (Some pl, Importer.set_plate_ids self (Some pl)), t)).
  { unfold Importer.get_plate_ids, Importer.first_document.
    rewrite Hdocs. cbv [bind ret]. now rewrite Hpl. }
  rewrite (bind_OK _ _ _ _ _ Hget). cbn [snd].
  set (self' := Importer.set_plate_ids self (Some pl)).
  rewrite (bind_OK _ _ _ _ _
             (fst_OK _ _ _ (organize_plates_returns conn self' t))).
  destruct (annotate_plates_returns conn self'
              (snd (Importer.organize_plates conn self' t)) Hok) as (o & Ho).
  now rewrite (bind_OK _ _ _ _ _ (fst_OK _ _ _ Ho)).
Qed.

Lemma image_pipeline_ok conn self d docs im t :
  Importer.import_result self = d :: docs ->
  Image d = Some im ->
  annotation_ok (Importer.ann self) (Importer.ns self) = true ->
  fst (image_pipeline conn self t)
  = OK (Some im, Importer.set_image_ids self (Some im)).
Proof.
  intros Hdocs Him Hok. unfold image_pipeline.
  assert (Hget : Importer.get_my_image_ids self t
                 = (OK (Some im, Importer.set_image_ids self (Some im)), t)).
  { unfold Importer.get_my_image_ids, Importer.first_document.
    rewrite Hdocs. cbv [bind ret]. now rewrite Him. }
  rewrite (bind_OK _ _ _ _ _ Hget). cbn [snd].
  set (self' := Importer.set_image_ids self (Some im)).
  rewrite (bind_OK _ _ _ _ _
             (fst_OK _ _ _ (organize_images_returns conn self' t))).
  destruct (annotate_images_returns conn self'
              (snd (Importer.organize_images conn self' t)) Hok) as (o & Ho).
  now rewrite (bind_OK _ _ _ _ _ (fst_OK _ _ _ Ho)).
Qed.

(** A run that is constructed and gets a document back is the chosen
    pipeline, as its caller sees it. *)
Lemma run_is_pipeline conn target project dataset screen ann ns args kwargs
    t d docs :
  truthy project && negb (truthy dataset) = false ->
  submitted conn
    (run_importer conn target project dataset screen ann ns args kwargs)
    (t ++ [EGetSession])
    = d :: docs ->
  ezimport conn target project dataset screen ann ns args kwargs t
  = seen
      ((if truthy screen
        then plate_pipeline conn
               (after_import
                  (run_importer conn target project dataset screen ann ns
                     args kwargs) (d :: docs))
        else image_pipeline conn
               (after_import
                  (run_importer conn target project dataset screen ann ns
                     args kwargs) (d :: docs)))
         (imported_trace conn
            (run_importer conn target project dataset screen ann ns args
               kwargs) t)).
Proof.
  intros Hinit Hdocs.
  rewrite ezimport_seen, ezimport_ctl_spec, Hinit. cbv zeta. rewrite Hdocs.
  reflexivity.
Qed.

(** X12.  A run that is constructed, gets a document back and is given
    an annotation that is a dictionary, or none, returns the identifiers
    the document lists for the kind it works on (plates with a screen,
    images without), unchanged and in their order, whether or not any of
    them could be linked. *)
Theorem run_returns_imported_ids (conn : BlitzGateway) (target : string)
    (project dataset screen : atom) (ann : pyval) (ns : atom)
    (args : list string) (kwargs : list (string * string)) (t : trace)
    (d : doc) (docs : list doc) :
  truthy project && negb (truthy dataset) = false ->
  submitted conn
    (run_importer conn target project dataset screen ann ns args kwargs)
    (t ++ [EGetSession])
    = d :: docs ->
  annotation_ok ann ns = true ->
  (truthy screen = true ->
   forall pl, Plate d = Some pl ->
     fst (ezimport conn target project dataset screen ann ns args kwargs t)
     = OK (Some pl)) /\
  (truthy screen = false ->
   forall im, Image d = Some im ->
     fst (ezimport conn target project dataset screen ann ns args kwargs t)
     = OK (Some im)).
Proof.
  intros Hinit Hdocs Hok.
  rewrite (run_is_pipeline _ _ _ _ _ _ _ _ _ _ _ _ Hinit Hdocs).
  split; intros -> ids Hids; unfold seen; cbn [fst].
  - erewrite plate_pipeline_ok;
      [reflexivity | reflexivity | exact Hids | exact Hok].
  - erewrite image_pipeline_ok;
      [reflexivity | reflexivity | exact Hids | exact Hok].
Qed.

Lemma run_returns_imported_ids_witness :
  fst (ezimport (demo_conn [mkDoc (Some [101; 102]) (Some [])] [102])
         "/data/a.tif" ANone (AStr "Exp1") ANone
         (PDict [(AStr "stain", Scalar (AStr "DAPI"))]) (AStr "ns1")
         [] [] [])
  = OK (Some [101; 102]).
Proof.
  apply (proj2 (run_returns_imported_ids
                  (demo_conn [mkDoc (Some [101; 102]) (Some [])] [102])
                  "/data/a.tif" ANone (AStr "Exp1") ANone
                  (PDict [(AStr "stain", Scalar (AStr "DAPI"))]) (AStr "ns1")
                  [] [] [] (mkDoc (Some [101; 102]) (Some [])) []
                  eq_refl eq_refl eq_refl) eq_refl [101; 102] eq_refl).
Defined.

(** X13.  A run whose document lacks the key of the kind it works on
    raises a key error for that key, ['Plate'] with a screen and
    ['Image'] without, after the import has been made and before
    anything is organized. *)
Theorem run_missing_key (conn : BlitzGateway) (target : string)
    (project dataset screen : atom) (ann : pyval) (ns : atom)
    (args : list string) (kwargs : list (string * string)) (t : trace)
    (d : doc) (docs : list doc) :
  truthy project && negb (truthy dataset) = false ->
  submitted conn
    (run_importer conn target project dataset screen ann ns args kwargs)
    (t ++ [EGetSession])
    = d :: docs ->
  let t1 :=
    imported_trace conn
      (run_importer conn target project dataset screen ann ns args kwargs)
      t in
  (truthy screen = true -> Plate d = None ->
   ezimport conn target project dataset screen ann ns args kwargs t
   = (Raised (KeyError "Plate"), t1)) /\
  (truthy screen = false -> Image d = None ->
   ezimport conn target project dataset screen ann ns args kwargs t
   = (Raised (KeyError "Image"), t1)).
Proof.
  intros Hinit Hdocs t1.
  rewrite (run_is_pipeline _ _ _ _ _ _ _ _ _ _ _ _ Hinit Hdocs). fold t1.
  split; intros -> Hkey.
  - unfold plate_pipeline, Importer.get_plate_ids, Importer.first_document.
    cbn [after_import Importer.set_imported Importer.set_import_result
         Importer.import_result].
    cbv [bind ret seen]. now rewrite Hkey.
  - unfold image_pipeline, Importer.get_my_image_ids,
      Importer.first_document.
    cbn [after_import Importer.set_imported Importer.set_import_result
         Importer.import_result].
    cbv [bind ret seen]. now rewrite Hkey.
Qed.

Lemma run_missing_key_witness :
  ezimport (demo_conn [mkDoc (Some [101]) None] [101])
    "/data/a.tif" ANone ANone (AStr "S") (PAtom ANone) ANone [] [] []
  = (Raised (KeyError "Plate"),
     [EGetSession; EGetSession;
      EImport ["import"; "-k"; "uuid"; "-s"; "localhost"; "-p"; "4064";
               "--file"; "/tmp/out"; "--output"; "yaml";
               "/data/a.tif"]%string;
      EPrint "Imported /data/a.tif"]).
Proof.
  apply (proj1 (run_missing_key
                  (demo_conn [mkDoc (Some [101]) None] [101])
                  "/data/a.tif" ANone ANone (AStr "S") (PAtom ANone) ANone
                  [] [] [] (mkDoc (Some [101]) None) []
                  eq_refl eq_refl) eq_refl eq_refl).
Defined.

(** X14.  A run whose import brings back no document raises nothing and
    returns [None]: after the import it only logs that the import has
    failed, and neither organizes nor annotates. *)
Theorem run_failed_import (conn : BlitzGateway) (target : string)
    (project dataset screen : atom) (ann : pyval) (ns : atom)
    (args : list string) (kwargs : list (string * string)) (t : trace) :
  truthy project && negb (truthy dataset) = false ->
  submitted conn
    (run_importer conn target project dataset screen ann ns args kwargs)
    (t ++ [EGetSession])
    = [] ->
  ezimport conn target project dataset screen ann ns args kwargs t
  = (OK None,
     t ++ [EGetSession; EGetSession;
           EImport
             (Importer.arguments_of conn
                (run_importer conn target project dataset screen ann ns args
                   kwargs) (tmp_name conn (t ++ [EGetSession])));
           ELog Error ("Import of " ++ abspath conn target
                       ++ " has failed!")]).
Proof.
  intros Hinit Hdocs.
  rewrite ezimport_seen, ezimport_ctl_spec, Hinit. cbv zeta. rewrite Hdocs.
  reflexivity.
Qed.

Lemma run_failed_import_witness :
  ezimport (demo_conn [] [101]) "/data/a.tif" ANone (AStr "Exp1") ANone
    (PDict [(AStr "stain", Scalar (AStr "DAPI"))]) (AStr "ns1") [] [] []
  = (OK None,
     [EGetSession; EGetSession;
      EImport ["import"; "-k"; "uuid"; "-s"; "localhost"; "-p"; "4064";
               "--file"; "/tmp/out"; "--output"; "yaml";
               "/data/a.tif"]%string;
      ELog Error "Import of /data/a.tif has failed!"]).
Proof.
  apply (run_failed_import (demo_conn [] [101]) "/data/a.tif" ANone
           (AStr "Exp1") ANone
           (PDict [(AStr "stain", Scalar (AStr "DAPI"))]) (AStr "ns1")
           [] [] [] eq_refl eq_refl).
Defined.

(** X15.  The type of the annotation is checked last.  A run on images
    given a namespace and an annotation that is not a dictionary imports,
    queries the orphans and organizes the images as usual, and only then
    raises the type error: what it did before stays done. *)
Theorem run_annotation_checked_last (conn : BlitzGateway) (target : string)
    (project dataset screen : atom) (ann : pyval) (ns : atom)
    (args : list string) (kwargs : list (string * string)) (t : trace)
    (d : doc) (docs : list doc) (x : Z) (l : list Z) :
  truthy project && negb (truthy dataset) = false ->
  submitted conn
    (run_importer conn target project dataset screen ann ns args kwargs)
    (t ++ [EGetSession])
    = d :: docs ->
  truthy screen = false ->
  Image d = Some (x :: l) ->
  truthy_val ann = true -> truthy ns = true -> type_is_dict ann = false ->
  let imp_ctl :=
    Importer.set_image_ids
      (after_import
         (run_importer conn target project dataset screen ann ns args kwargs)
         (d :: docs)) (Some (x :: l)) in
  let t1 :=
    imported_trace conn
      (run_importer conn target project dataset screen ann ns args kwargs)
      t in
  ezimport conn target project dataset screen ann ns args kwargs t
  = (Raised (TypeError "Annotation must be of type `dict`"),
     snd (Importer.organize_images conn imp_ctl t1)) /\
  fst (Importer.organize_images conn imp_ctl t1) = OK true.
Proof.
  intros Hinit Hdocs Hscreen Him Hann Hns Hdict imp_ctl t1.
  rewrite (run_is_pipeline _ _ _ _ _ _ _ _ _ _ _ _ Hinit Hdocs), Hscreen.
  fold t1.
  pose proof (organize_images_returns conn imp_ctl t1) as Horg.
  change (truthy_ids (Importer.image_ids imp_ctl)) with true in Horg.
  split; [|exact Horg].
  unfold image_pipeline.
  assert (Hget :
    Importer.get_my_image_ids
      (after_import
         (run_importer conn target project dataset screen ann ns args kwargs)
         (d :: docs)) t1
    = (OK (Some (x :: l), imp_ctl), t1)).
  { unfold Importer.get_my_image_ids, Importer.first_document.
    cbn [after_import Importer.set_imported Importer.set_import_result
         Importer.import_result].
    cbv [bind ret]. now rewrite Him. }
  rewrite (bind_OK _ _ _ _ _ Hget). cbn [snd].
  rewrite (bind_OK _ _ _ _ _ (fst_OK _ _ _ Horg)).
  assert (Hskip : skipped (Importer.ann imp_ctl) (Importer.ns imp_ctl)
                  = false).
  { unfold skipped.
    change (Importer.ann imp_ctl) with ann.
    change (Importer.ns imp_ctl) with ns.
    now rewrite Hann, Hns. }
  now rewrite (bind_Raised _ _ _ _ _
                 (annotate_images_not_dict conn imp_ctl x l _ Hskip Hdict
                    eq_refl)).
Qed.

Lemma run_annotation_checked_last_witness :
  ezimport (demo_conn [mkDoc (Some [101]) (Some [])] [101])
    "/data/a.tif" ANone (AInt 7) ANone (PList [1]) (AStr "ns1") [] [] []
  = (Raised (TypeError "Annotation must be of type `dict`"),
     [EGetSession; EGetSession;
      EImport ["import"; "-k"; "uuid"; "-s"; "localhost"; "-p"; "4064";
               "--file"; "/tmp/out"; "--output"; "yaml";
               "/data/a.tif"]%string;
      EPrint "Imported /data/a.tif";
      EGetImageIds;
      ELinkImages [101] 7;
      EPrint "Moved Image:101 to Dataset:7"]).
Proof.
  apply (proj1 (run_annotation_checked_last
                  (demo_conn [mkDoc (Some [101]) (Some [])] [101])
                  "/data/a.tif" ANone (AInt 7) ANone (PList [1]) (AStr "ns1")
                  [] [] [] (mkDoc (Some [101]) (Some [])) [] 101 []
                  eq_refl eq_refl eq_refl eq_refl eq_refl eq_refl eq_refl)).
Defined.

(** ** More on the pairs and the resolvers *)

Lemma in_pairs_of_entry (item : atom * dval) (k v : string) :
  In (k, v) (pairs_of_entry item) <->
  k = py_str (fst item) /\
  match snd item with
  | Scalar a => v = py_str a
  | Seq l => exists a, In a l /\ v = py_str a
  end.
Proof.
  unfold pairs_of_entry. destruct (snd item) as [a|l].
  - cbn. split.
    + intros [[= <- <-]|[]]. now split.
    + intros [-> ->]. now left.
  - rewrite in_map_iff. split.
    + intros (a & [= <- <-] & Hin). split; [reflexivity | now exists a].
    + intros (-> & a & Hin & ->). now exists a.
Qed.

(** X16.  The pairs of two mappings put one after the other are the
    pairs of the first followed by those of the second.  A pair is among
    the pairs of a mapping exactly when its key is the string of the key
    of an entry and its value the string of the scalar of that entry or
    of an element of its list: an entry whose list is empty leaves no
    pair, so its key does not reach the record. *)
Theorem flatten_kv_pairs (d1 d2 : pydict) (k v : string) :
  flatten_kv (d1 ++ d2) = flatten_kv d1 ++ flatten_kv d2 /\
  (In (k, v) (flatten_kv d1) <->
   exists key value,
     In (key, value) d1 /\ k = py_str key /\
     match value with
     | Scalar a => v = py_str a
     | Seq l => exists a, In a l /\ v = py_str a
     end).
Proof.
  rewrite !flatten_kv_spec. unfold flatten_spec. split.
  - apply flat_map_app.
  - rewrite in_flat_map. split.
    + intros ([key value] & Hin & Hpair).
      apply in_pairs_of_entry in Hpair as [Hk Hv].
      now exists key, value.
    + intros (key & value & Hin & Hk & Hv).
      exists (key, value). split; [exact Hin|].
      now apply in_pairs_of_entry.
Qed.

(** X17.  The resolvers raise a type error on [None], before any call.
    No reference that passes [if ref:] makes them raise: each returns an
    identifier for it. *)
Theorem resolvers_accept_truthy (conn : BlitzGateway)
    (project_id : option Z) (a : atom) (t : trace) :
  set_or_create_project conn ANone t
    = (Raised (TypeError "'project' must be str or int"), t) /\
  set_or_create_dataset conn project_id ANone t
    = (Raised (TypeError "'dataset' must be str or int"), t) /\
  set_or_create_screen conn ANone t
    = (Raised (TypeError "'screen' must be str or int"), t) /\
  (truthy a = true ->
   (exists id, fst (set_or_create_project conn a t) = OK id) /\
   (exists id, fst (set_or_create_dataset conn project_id a t) = OK id) /\
   (exists id, fst (set_or_create_screen conn a t) = OK id)).
Proof.
  repeat (split; [reflexivity|]).
  intros Ha.
  destruct (truthy_inv _ Ha) as [(name & -> & _) | (n & -> & _)].
  - rewrite set_or_create_project_str, set_or_create_dataset_str,
      set_or_create_screen_str.
    repeat split; now eexists.
  - repeat split; now eexists.
Qed.

Lemma resolvers_accept_truthy_witness :
  exists id,
    fst (set_or_create_dataset (demo_conn [] []) (Some 3) (AStr "Exp1") [])
    = OK id.
Proof.
  apply (proj2 (proj2 (proj2 (resolvers_accept_truthy (demo_conn [] [])
                                (Some 3) (AStr "Exp1") []))) eq_refl).
Defined.

Lemma filter_creation_image_events orphans dataset_id ids :
  filter is_creation (flat_map (image_events orphans dataset_id) ids) = [].
Proof.
  induction ids as [|id ids IH]; cbn [flat_map]; [reflexivity|].
  rewrite filter_app, IH. unfold image_events.
  destruct (Importer.mem id orphans); [|reflexivity].
  destruct dataset_id as [ds|]; [|reflexivity].
  now destruct (ds =? 0).
Qed.

(** X18.  [organize_images] builds the hierarchy top down.  Given images
    and the names of a project and a dataset, it creates the project
    first and then the dataset as a child of the project just created
    (without a parent if the server gave the project the identifier 0);
    given the project by a non-zero identifier instead, it creates only
    the dataset, under that project. *)
Theorem organize_images_creates_hierarchy (conn : BlitzGateway)
    (self : Importer.t) (x : Z) (l : list Z) (dname : string) (t : trace) :
  Importer.image_ids self = Some (x :: l) ->
  Importer.dataset self = AStr dname ->
  dname <> ""%string ->
  (forall pname,
     Importer.project self = AStr pname -> pname <> ""%string ->
     let project_id := new_id conn (t ++ [EGetImageIds]) in
     filter is_creation (added (Importer.organize_images conn self) t)
     = [EPostProject pname;
        EPostDataset dname
          (if project_id =? 0 then None else Some project_id)]) /\
  (forall n,
     Importer.project self = AInt n -> n <> 0 ->
     filter is_creation (added (Importer.organize_images conn self) t)
     = [EPostDataset dname (Some n)]).
Proof.
  intros Hids Hd Hdne. apply String.eqb_neq in Hdne.
  split.
  - intros pname Hp Hpne project_id. apply String.eqb_neq in Hpne.
    erewrite added_app.
    2:{ rewrite organize_images_unfold, Hids. unfold resolve_hierarchy.
        rewrite Hp, Hd. cbn [truthy]. rewrite Hpne, Hdne. cbn [negb].
        rewrite (bind_OK _ _ _ _ _
                   (bind_OK _ _ _ _ _
                      (set_or_create_project_str conn pname _))).
        cbv beta.
        rewrite (bind_OK _ _ _ _ _ (set_or_create_dataset_str conn _ dname _)).
        unfold ret. rewrite <- !app_assoc. reflexivity. }
    rewrite !filter_app, filter_creation_image_events.
    cbn [truthy_id]. fold project_id. now destruct (project_id =? 0).
  - intros n Hp Hne. apply Z.eqb_neq in Hne.
    erewrite added_app.
    2:{ rewrite organize_images_unfold, Hids. unfold resolve_hierarchy.
        rewrite Hp, Hd. cbn [truthy]. rewrite Hne, Hdne. cbn [negb].
        rewrite (bind_OK _ _ _ _ _
                   (bind_OK _ _ _ _ _
                      (set_or_create_project_int conn n _))).
        cbv beta.
        rewrite (bind_OK _ _ _ _ _ (set_or_create_dataset_str conn _ dname _)).
        unfold ret. rewrite <- !app_assoc. reflexivity. }
    rewrite !filter_app, filter_creation_image_events.
    cbn [truthy_id]. now rewrite Hne.
Qed.

Lemma organize_images_creates_hierarchy_witness :
  filter is_creation
    (added
       (Importer.organize_images (demo_conn [] [101])
          (Importer.set_image_ids
             (new_importer "/data/a.tif" (AStr "P1") (AStr "Exp1") ANone
                (PAtom ANone) ANone [] [])
             (Some [101]))) [])
  = [EPostProject "P1"; EPostDataset "Exp1" (Some 1001)].
Proof.
  apply (proj1 (organize_images_creates_hierarchy (demo_conn [] [101])
                  (Importer.set_image_ids
                     (new_importer "/data/a.tif" (AStr "P1") (AStr "Exp1")
                        ANone (PAtom ANone) ANone [] [])
                     (Some [101])) 101 [] "Exp1" []
                  eq_refl eq_refl ltac:(discriminate)) "P1"%string eq_refl
           ltac:(discriminate)).
Defined.
